(** * A book catalog kept in a JSON file: [library.py]

    A shallow embedding of the classes [Book] and [Library] of
    [src/library.py] and of its menu loop [main], and the properties of
    the catalog that its specification states.

    Conventions of the embedding.
    - Python [int] is [Z]; Python [str] is [string], holding the UTF-8
      encoding of the text (equality and substring tests agree with the
      ones on code points).
    - A method is a function from the state it runs in to an outcome and
      the state it leaves: a raised exception keeps the mutations made
      before it, as in Python.
    - The backing file is seen through [json.load] and [json.dump]: it is
      absent, not text, not JSON, or the JSON document it decodes to.
    - [print] appends a line to the console. *)

From Stdlib Require Import ZArith String Ascii List Lia.
From stdpp Require Import base decidable option list sorting strings pretty.

Local Set Warnings "-register-all".
Local Open Scope string_scope.
Local Open Scope list_scope.
Local Open Scope Z_scope.

(** ** The Python run-time that the program relies on *)

(** The exceptions that the program can meet. *)
Inductive exn : Type :=
| FileNotFoundError
| UnicodeDecodeError
| JSONDecodeError
| OSError
| KeyError (key : string)
| TypeError
| AttributeError.

(** The outcome of a call: a value, an exception, or [Untyped] when the run
    would store in a record something other than an integer in an attribute
    annotated [int], or other than a string in one annotated [str] (Python
    would go on with the odd value). Records here are typed, so the
    embedding does not follow such runs, and no property below concludes
    anything from them. *)
Inductive result (A : Type) : Type :=
| Ok (a : A)
| Raise (e : exn)
| Untyped.
Arguments Ok {A} a.
Arguments Raise {A} e.
Arguments Untyped {A}.

(** What [json.load] returns (documents without fractional numbers). An
    object keeps its members in order; its keys are pairwise distinct, as
    the keys of a Python [dict] are. *)
Inductive json : Type :=
| JNull
| JBool (b : bool)
| JInt (n : Z)
| JStr (s : string)
| JList (items : list json)
| JDict (members : list (string * json)).

Fixpoint dict_get (members : list (string * json)) (key : string) : option json :=
  match members with
  | [] => None
  | (k, v) :: rest => if decide (k = key) then Some v else dict_get rest key
  end.

(** [data[key]] for a string [key]: only a mapping can be subscripted by a
    string, and a key it lacks is a [KeyError]. *)
Definition subscript (data : json) (key : string) : result json :=
  match data with
  | JDict members =>
      match dict_get members key with
      | Some v => Ok v
      | None => Raise (KeyError key)
      end
  | _ => Raise TypeError
  end.

(** [for x in data]: a list yields its items, a mapping its keys, a string
    its characters (one entry per code unit here: the program only hands
    them to [from_dict], which rejects every string); the other values are
    not iterable. *)
Definition py_iter (data : json) : result (list json) :=
  match data with
  | JList items => Ok items
  | JDict members => Ok ((λ kv, JStr kv.1) <$> members)
  | JStr s => Ok ((λ c, JStr (String c EmptyString)) <$> list_ascii_of_string s)
  | _ => Raise TypeError
  end.

(** [needle in haystack] on strings. *)
Fixpoint str_contains (needle haystack : string) : bool :=
  String.prefix needle haystack ||
  match haystack with
  | EmptyString => false
  | String _ rest => str_contains needle rest
  end.

(** [str(n)] for an [int]. *)
Definition str_of_int (n : Z) : string := pretty n.

(** ** class Book *)

Record Book : Type := mkBook {
  id : Z;
  title : string;
  author : string;
  year : Z;
  status : string
}.

#[global] Instance Book_eq_dec : EqDecision Book.
Proof. solve_decision. Defined.

Definition AVAILABLE : string := "в наличии".
Definition CHECKED_OUT : string := "выдана".

(** [Book.__init__]: [status] defaults to [AVAILABLE]. *)
Definition Book_init (book_id : Z) (title author : string) (year : Z)
    (status : option string) : Book :=
  mkBook book_id title author year (default AVAILABLE status).

Definition to_dict (self : Book) : json :=
  JDict [ ("id", JInt (id self));
          ("title", JStr (title self));
          ("author", JStr (author self));
          ("year", JInt (year self));
          ("status", JStr (status self)) ].

Definition as_int (v : json) : result Z :=
  match v with JInt n => Ok n | _ => Untyped end.

Definition as_str (v : json) : result string :=
  match v with JStr s => Ok s | _ => Untyped end.

#[global] Instance result_ret : MRet result := λ A a, Ok a.

#[global] Instance result_bind : MBind result := λ A B k r,
  match r with
  | Ok a => k a
  | Raise e => Raise e
  | Untyped => Untyped
  end.

(** [Book.from_dict]: the five subscripts are evaluated in the order of the
    keyword arguments, then the record is built. *)
Definition from_dict (data : json) : result Book :=
  v_id ← subscript data "id";
  v_title ← subscript data "title";
  v_author ← subscript data "author";
  v_year ← subscript data "year";
  v_status ← subscript data "status";
  book_id ← as_int v_id;
  title ← as_str v_title;
  author ← as_str v_author;
  year ← as_int v_year;
  status ← as_str v_status;
  Ok (Book_init book_id title author year (Some status)).

(** [[Book.from_dict(book) for book in data]]: the first failure ends the
    comprehension. *)
Fixpoint from_dicts (items : list json) : result (list Book) :=
  match items with
  | [] => Ok []
  | item :: rest =>
      b ← from_dict item;
      bs ← from_dicts rest;
      Ok (b :: bs)
  end.

(** ** The state a method runs in *)

(** What is stored at the path [self.data_file], as [open] and [json.load]
    see it: no file, bytes that are not UTF-8 text, text that is not JSON,
    or a JSON document. *)
Inductive file : Type :=
| NoFile
| NotText
| NotJson
| Json (doc : json).

(** A [Library] object together with what it reaches outside itself. *)
Record Library : Type := mkLibrary {
  books : list Book;       (* self.books *)
  data_file : file;        (* the content stored at the path self.data_file *)
  writable : bool;         (* whether the path can be opened for writing *)
  stdout : list string     (* the lines printed so far, oldest first *)
}.

(** What a method hands back to its caller. *)
Inductive pyobj : Type :=
| PyNone
| PyBook (b : Book)
| PyBooks (bs : list Book).

Definition M (A : Type) : Type := Library → result A * Library.

#[global] Instance M_ret : MRet M := λ A a st, (Ok a, st).

#[global] Instance M_bind : MBind M := λ A B k m st,
  match m st with
  | (Ok a, st') => k a st'
  | (Raise e, st') => (Raise e, st')
  | (Untyped, st') => (Untyped, st')
  end.

Definition lift {A} (r : result A) : M A := λ st, (r, st).

Definition raise {A} (e : exn) : M A := lift (Raise e).

Definition get_books : M (list Book) := λ st, (Ok (books st), st).

Definition set_books (bs : list Book) : M unit := λ st,
  (Ok (), mkLibrary bs (data_file st) (writable st) (stdout st)).

Definition print (line : string) : M unit := λ st,
  (Ok (), mkLibrary (books st) (data_file st) (writable st) (stdout st ++ [line])).

(** [with open(self.data_file, "r", encoding="utf-8") as file: json.load(file)] *)
Definition json_load : M json := λ st,
  match data_file st with
  | NoFile => (Raise FileNotFoundError, st)
  | NotText => (Raise UnicodeDecodeError, st)
  | NotJson => (Raise JSONDecodeError, st)
  | Json doc => (Ok doc, st)
  end.

(** [with open(self.data_file, "w", encoding="utf-8") as file: json.dump(doc, file, ...)]:
    a path that cannot be opened raises and leaves the file as it was. *)
Definition json_dump (doc : json) : M unit := λ st,
  if writable st
  then (Ok (), mkLibrary (books st) (Json doc) (writable st) (stdout st))
  else (Raise OSError, st).

(** [try: body except (...): handler], the exceptions listed being those
    [caught] accepts. *)
Definition try_except {A} (body : M A) (caught : exn → bool) (handler : M A) : M A := λ st,
  match body st with
  | (Raise e, st') => if caught e then handler st' else (Raise e, st')
  | other => other
  end.

(** ** class Library *)

Definition load_books : M pyobj :=
  try_except
    (data ← json_load;
     items ← lift (py_iter data);
     bs ← lift (from_dicts items);
     _ ← set_books bs;
     mret PyNone)
    (λ e, match e with FileNotFoundError | JSONDecodeError => true | _ => false end)
    (_ ← set_books [];
     mret PyNone).

(** [Library.__init__] *)
Definition Library_init : M pyobj :=
  _ ← set_books [];
  load_books.

(** The document [save_books] writes. *)
Definition serialize (bs : list Book) : json := JList (to_dict <$> bs).

Definition save_books : M pyobj :=
  bs ← get_books;
  _ ← json_dump (serialize bs);
  mret PyNone.

(** [1 if not self.books else self.books[-1].id + 1] *)
Definition next_id (bs : list Book) : Z :=
  match last bs with
  | None => 1
  | Some b => id b + 1
  end.

Definition msg_added (b : Book) : string :=
  "Книга добавлена: " +:+ title b +:+ " (" +:+ str_of_int (year b) +:+ ")".

Definition add_book (title author : string) (year : Z) : M pyobj :=
  bs ← get_books;
  let book_id := next_id bs in
  let new_book := Book_init book_id title author year None in
  _ ← set_books (bs ++ [new_book]);
  _ ← save_books;
  _ ← print (msg_added new_book);
  mret PyNone.

(** [next((book for book in self.books if book.id == book_id), None)]: the
    first record with that id. The record comes with its position in
    [self.books], which stands for the reference Python returns. *)
Definition find_book_by_id (book_id : Z) : M (option (nat * Book)) :=
  bs ← get_books;
  mret (list_find (λ b, id b = book_id) bs).

Definition msg_removed (book_id : Z) : string :=
  "Книга с id " +:+ str_of_int book_id +:+ " удалена.".

Definition msg_not_found (book_id : Z) : string :=
  "Книга с id " +:+ str_of_int book_id +:+ " не найдена.".

(** [self.books.remove(book)] deletes the first entry that is [book]: the
    entry [find_book_by_id] returned, since any earlier entry has another
    id. *)
Definition remove_book (book_id : Z) : M pyobj :=
  found ← find_book_by_id book_id;
  match found with
  | Some (ref, _) =>
      bs ← get_books;
      _ ← set_books (delete ref bs);
      _ ← save_books;
      _ ← print (msg_removed book_id);
      mret PyNone
  | None =>
      _ ← print (msg_not_found book_id);
      mret PyNone
  end.

Definition set_status (new_status : string) (b : Book) : Book :=
  mkBook (id b) (title b) (author b) (year b) new_status.

Definition msg_status_changed (book_id : Z) (new_status : string) : string :=
  "Статус книги с id " +:+ str_of_int book_id +:+ " изменен на '" +:+ new_status +:+ "'.".

Definition msg_bad_status : string :=
  "Неверный статус. Используйте 'в наличии' или 'выдана'.".

Definition valid_status (new_status : string) : bool :=
  bool_decide (new_status ∈ [AVAILABLE; CHECKED_OUT]).

(** [book.status = new_status] writes through the reference: the entry of
    [self.books] at that position changes. *)
Definition change_status (book_id : Z) (new_status : string) : M pyobj :=
  found ← find_book_by_id book_id;
  match found with
  | Some (ref, _) =>
      if valid_status new_status then
        bs ← get_books;
        _ ← set_books (alter (set_status new_status) ref bs);
        _ ← save_books;
        _ ← print (msg_status_changed book_id new_status);
        mret PyNone
      else
        _ ← print msg_bad_status;
        mret PyNone
  | None =>
      _ ← print (msg_not_found book_id);
      mret PyNone
  end.

Definition book_line (b : Book) : string :=
  "ID: " +:+ str_of_int (id b) +:+ ", Название: " +:+ title b +:+
  ", Автор: " +:+ author b +:+ ", Год: " +:+ str_of_int (year b) +:+
  ", Статус: " +:+ status b.

Definition msg_empty : string := "Библиотека пуста.".

Fixpoint print_all (lines : list string) : M unit :=
  match lines with
  | [] => mret ()
  | line :: rest => _ ← print line; print_all rest
  end.

(** [display_books]: [books or self.books] takes the argument unless it is
    [None] or empty. *)
Definition display_books (arg : option (list Book)) : M pyobj :=
  bs ← get_books;
  let shown := match arg with
               | Some (b :: rest) => b :: rest
               | _ => bs
               end in
  match shown with
  | [] => _ ← print msg_empty; mret PyNone
  | _ => _ ← print_all (book_line <$> shown); mret PyNone
  end.

Definition msg_no_results (keyword : string) : string :=
  "Книги по запросу '" +:+ keyword +:+ "' не найдены.".

(** ** Searching *)

(** The value [getattr(book, field)] yields: one of the record's own
    attributes, or an object found through the class. *)
Inductive attr : Type :=
| AInt (n : Z)
| AStr (s : string)
| AObj (name : string).

(** The names [class Book] itself binds. *)
Definition class_attrs : list string := ["__init__"; "to_dict"; "from_dict"].

(** The ASCII part of [str.lower]. *)
Definition lower_ascii (c : ascii) : ascii :=
  let n := N_of_ascii c in
  if ((65 <=? n) && (n <=? 90))%N then ascii_of_N (n + 32) else c.

Fixpoint lower_string (s : string) : string :=
  match s with
  | EmptyString => EmptyString
  | String c rest => String (lower_ascii c) (lower_string rest)
  end.

Fixpoint is_ascii (s : string) : bool :=
  match s with
  | EmptyString => true
  | String c rest => (N_of_ascii c <? 128)%N && is_ascii rest
  end.

Section Search.
(** What the interpreter provides and the program does not define:
    [str.lower] on arbitrary text; the names every object answers to
    ([__class__], [__doc__], ...); and how [str] renders an object found
    through the class (a method, for one). *)
Variable str_lower : string → string.
Variable implicit_attr : string → bool.
Variable obj_repr : string → Book → string.

Definition getattr (b : Book) (name : string) : result attr :=
  if decide (name = "id") then Ok (AInt (id b))
  else if decide (name = "title") then Ok (AStr (title b))
  else if decide (name = "author") then Ok (AStr (author b))
  else if decide (name = "year") then Ok (AInt (year b))
  else if decide (name = "status") then Ok (AStr (status b))
  else if bool_decide (name ∈ class_attrs) || implicit_attr name then Ok (AObj name)
  else Raise AttributeError.

Definition py_str (b : Book) (v : attr) : string :=
  match v with
  | AInt n => str_of_int n
  | AStr s => s
  | AObj name => obj_repr name b
  end.

(** [keyword.lower() in str(getattr(book, field)).lower()] *)
Definition matches (keyword field : string) (b : Book) : result bool :=
  v ← getattr b field;
  mret (str_contains (str_lower keyword) (str_lower (py_str b v))).

(** The comprehension that builds [results]. *)
Fixpoint search_results (keyword field : string) (bs : list Book) : result (list Book) :=
  match bs with
  | [] => Ok []
  | b :: rest =>
      hit ← matches keyword field b;
      rs ← search_results keyword field rest;
      mret (if hit : bool then b :: rs else rs)
  end.

Definition search_books (keyword field : string) : M pyobj :=
  bs ← get_books;
  results ← lift (search_results keyword field bs);
  match results with
  | [] => _ ← print (msg_no_results keyword); mret PyNone
  | _ => _ ← display_books (Some results); mret PyNone
  end.
End Search.

(** An interpreter to run examples with: text is ASCII, the inherited names
    are the ones listed, and an object found through the class is rendered
    by its name alone. *)
Definition ascii_implicit (name : string) : bool :=
  bool_decide (name ∈ ["__class__"; "__dict__"; "__doc__"; "__module__"]).

Definition ascii_repr (name : string) (_ : Book) : string :=
  "<Book." +:+ name +:+ ">".

(** ** The menu loop: [main] *)

(** What [main] runs in: its [Library] object, with the console and the
    file behind it, and the lines that are still to be typed. *)
Record Console : Type := mkConsole {
  library : Library;
  stdin : list string
}.

(** The exceptions [main] can meet: those of the library, the end of the
    input, and a text that [int] rejects. *)
Inductive shell_exn : Type :=
| LibraryError (e : exn)
| EOFError
| ValueError.

(** How a step of [main] ends; [Lost] stands for [Untyped]. *)
Inductive outcome (A : Type) : Type :=
| Done (a : A)
| Failed (e : shell_exn)
| Lost.
Arguments Done {A} a.
Arguments Failed {A} e.
Arguments Lost {A}.

Definition Sh (A : Type) : Type := Console → outcome A * Console.

#[global] Instance Sh_ret : MRet Sh := λ A a c, (Done a, c).

#[global] Instance Sh_bind : MBind Sh := λ A B k m c,
  match m c with
  | (Done a, c') => k a c'
  | (Failed e, c') => (Failed e, c')
  | (Lost, c') => (Lost, c')
  end.

Definition fail {A} (e : shell_exn) : Sh A := λ c, (Failed e, c).

(** A call of a method of [library], or of [print]. *)
Definition call {A} (m : M A) : Sh A := λ c,
  match m (library c) with
  | (Ok a, st') => (Done a, mkConsole st' (stdin c))
  | (Raise e, st') => (Failed (LibraryError e), mkConsole st' (stdin c))
  | (Untyped, st') => (Lost, mkConsole st' (stdin c))
  end.

(** [input(prompt)]: the prompt is written (it is recorded on the console
    like a printed line, though no newline follows it), then the next line
    typed is taken; at the end of the input [EOFError] is raised. *)
Definition read_line : Sh string := λ c,
  match stdin c with
  | [] => (Failed EOFError, c)
  | line :: rest => (Done line, mkConsole (library c) rest)
  end.

Definition input (prompt : string) : Sh string :=
  _ ← call (print prompt);
  read_line.

(** Whether the [while] loop goes round again ([continue], or the end of
    the body) or is left ([break]). *)
Inductive control : Type :=
| Again
| Quit.

Definition menu_lines : list string :=
  [ String "010" "Меню:";
    "1. Добавить книгу";
    "2. Удалить книгу";
    "3. Найти книгу";
    "4. Отобразить все книги";
    "5. Изменить статус книги";
    "6. Выход" ].

Definition msg_empty_title : string := "Название книги не может быть пустым.".
Definition msg_bad_id : string := "Неверный id".
Definition msg_goodbye : string := "До свидания!".
Definition msg_bad_choice : string := "Неверный выбор. Попробуйте снова.".

Section Shell.
(** What the interpreter provides: besides the three of the search,
    [str.strip], [str.isdigit], and [int] on a string ([None] where it
    raises [ValueError]). *)
Variable str_lower : string → string.
Variable implicit_attr : string → bool.
Variable obj_repr : string → Book → string.
Variable str_strip : string → string.
Variable str_isdigit : string → bool.
Variable py_int : string → option Z.

(** The [if]/[elif] chain on the choice typed. *)
Definition dispatch (choice : string) : Sh control :=
  if decide (choice = "1") then
    title ← input "Введите название книги: ";
    if decide (title = "") then
      _ ← call (print msg_empty_title);
      mret Again
    else
      author ← input "Введите автора книги: ";
      year_text ← input "Введите год издания книги: ";
      year ← (if str_isdigit year_text
              then match py_int year_text with
                   | Some n => mret n
                   | None => fail ValueError
                   end
              else mret 0);
      _ ← call (add_book title author year);
      mret Again
  else if decide (choice = "2") then
    id_text ← input "Введите id книги для удаления: ";
    match py_int id_text with
    | None =>
        _ ← call (print msg_bad_id);
        mret Again
    | Some book_id =>
        _ ← call (remove_book book_id);
        mret Again
    end
  else if decide (choice = "3") then
    typed ← input "Введите поле для поиска (title, author, year): ";
    let field := str_lower (str_strip typed) in
    keyword ← input "Введите ключевое слово для поиска: ";
    _ ← call (search_books str_lower implicit_attr obj_repr keyword field);
    mret Again
  else if decide (choice = "4") then
    _ ← call (display_books None);
    mret Again
  else if decide (choice = "5") then
    id_text ← input "Введите id книги: ";
    match py_int id_text with
    | None =>
        _ ← call (print msg_bad_id);
        mret Again
    | Some book_id =>
        new_status ← input "Введите новый статус (в наличии/выдана): ";
        _ ← call (change_status book_id new_status);
        mret Again
    end
  else if decide (choice = "6") then
    _ ← call (print msg_goodbye);
    mret Quit
  else
    _ ← call (print msg_bad_choice);
    mret Again.

(** One round of the [while True] loop. *)
Definition iteration : Sh control :=
  _ ← call (print_all menu_lines);
  choice ← input "Выберите действие: ";
  dispatch choice.

(** The [while True] loop, for at most [fuel] rounds; [None] when the
    rounds run out. *)
Fixpoint loop (fuel : nat) (c : Console) : option (outcome unit * Console) :=
  match fuel with
  | O => None
  | S fuel' =>
      match iteration c with
      | (Done Again, c') => loop fuel' c'
      | (Done Quit, c') => Some (Done (), c')
      | (Failed e, c') => Some (Failed e, c')
      | (Lost, c') => Some (Lost, c')
      end
  end.

(** [main]: [library = Library()], then the loop. Each round takes at least
    one line of the input, so one round more than there are lines is
    enough. *)
Definition main (c : Console) : option (outcome unit * Console) :=
  match call Library_init c with
  | (Done _, c') => loop (S (length (stdin c'))) c'
  | (Failed e, c') => Some (Failed e, c')
  | (Lost, c') => Some (Lost, c')
  end.
End Shell.

(** [str.strip], [str.isdigit] and [int] on ASCII text, to run examples
    with. *)
Definition is_space (c : ascii) : bool :=
  let n := N_of_ascii c in
  ((n =? 32) || ((9 <=? n) && (n <=? 13)) || ((28 <=? n) && (n <=? 31)))%N.

Fixpoint lstrip (s : string) : string :=
  match s with
  | String c rest => if is_space c then lstrip rest else s
  | EmptyString => EmptyString
  end.

Definition ascii_strip (s : string) : string :=
  String.rev (lstrip (String.rev (lstrip s))).

Definition is_digit (c : ascii) : bool :=
  let n := N_of_ascii c in ((48 <=? n) && (n <=? 57))%N.

Fixpoint all_digits (s : string) : bool :=
  match s with
  | EmptyString => true
  | String c rest => is_digit c && all_digits rest
  end.

Definition ascii_isdigit (s : string) : bool :=
  match s with
  | EmptyString => false
  | _ => all_digits s
  end.

(** The digits of a decimal literal, single underscores allowed between
    them; [seen] tells whether the character before was a digit. *)
Fixpoint int_digits (seen : bool) (acc : Z) (s : string) : option Z :=
  match s with
  | EmptyString => if seen then Some acc else None
  | String c rest =>
      if is_digit c
      then int_digits true (10 * acc + (Z.of_N (N_of_ascii c) - 48)) rest
      else if seen && bool_decide (c = "_"%char)
      then int_digits false acc rest
      else None
  end.

(** [int(s)]: blanks around, an optional sign, then the digits. *)
Definition ascii_int (s : string) : option Z :=
  match ascii_strip s with
  | String "-" rest => Z.opp <$> int_digits false 0 rest
  | String "+" rest => int_digits false 0 rest
  | digits => int_digits false 0 digits
  end.

(** ** Notions the properties are stated with *)

(** The greatest id of a non-empty catalog. *)
Definition max_id (b : Book) (rest : list Book) : Z :=
  foldr (λ b' m, Z.max (id b') m) (id b) rest.

(** The id the specification gives a new record: one more than the greatest
    id, or 1 in an empty catalog. *)
Definition spec_next_id (bs : list Book) : Z :=
  match bs with
  | [] => 1
  | b :: rest => 1 + max_id b rest
  end.

Definition ids (bs : list Book) : list Z := id <$> bs.

(** Ids grow strictly along the catalog. *)
Definition ascending (bs : list Book) : Prop := StronglySorted Z.lt (ids bs).

(** [needle] occurs in [haystack]. *)
Definition substring (needle haystack : string) : Prop :=
  ∃ before after, haystack = before +:+ needle +:+ after.

(** The text of a searchable field. *)
Definition field_text (field : string) (b : Book) : string :=
  if decide (field = "title") then title b
  else if decide (field = "author") then author b
  else str_of_int (year b).

Definition searchable (field : string) : Prop :=
  field ∈ ["title"; "author"; "year"].

(** The state [st] after [lines] were printed. *)
Definition say (st : Library) (lines : list string) : Library :=
  mkLibrary (books st) (data_file st) (writable st) (stdout st ++ lines).

(** [field] of [b] contains [keyword], both case folded by [str_lower]. *)
Definition contains_keyword (str_lower : string → string) (keyword field : string)
    (b : Book) : Prop :=
  substring (str_lower keyword) (str_lower (field_text field b)).

(** [hits] are exactly the records of [bs] that satisfy [P], in the order
    of [bs]. *)
Inductive selects (P : Book → Prop) : list Book → list Book → Prop :=
| selects_nil : selects P [] []
| selects_keep b bs hits :
    P b → selects P bs hits → selects P (b :: bs) (b :: hits)
| selects_skip b bs hits :
    ¬ P b → selects P bs hits → selects P (b :: bs) hits.

(** What [search_books] prints for a list of hits. *)
Definition report (keyword : string) (hits : list Book) : list string :=
  match hits with
  | [] => [msg_no_results keyword]
  | _ => book_line <$> hits
  end.

(** The names of the attributes [Book.__init__] sets on a record. *)
Definition record_attrs : list string := ["id"; "title"; "author"; "year"; "status"].

(** Ids ascend and start at 1 or above. *)
Definition well_numbered (st : Library) : Prop :=
  ascending (books st) ∧ Forall (λ b, 1 ≤ id b) (books st).


(** A method keeps [I], and raises only what [E] allows. *)
Definition lib_spec {A} (I : Library → Prop) (E : exn → Prop) (m : M A) : Prop :=
  ∀ st r st', I st → m st = (r, st') →
    I st' ∧ match r with Ok _ => True | Raise e => E e | Untyped => False end.

(** All that [main] does to its library keeps [I] and raises only what [E]
    allows. *)
Record lib_inv (I : Library → Prop) (E : exn → Prop) : Prop := mk_lib_inv {
  inv_say : ∀ st lines, I st → I (say st lines);
  inv_attr : E AttributeError;
  inv_add : ∀ t a y, lib_spec I E (add_book t a y);
  inv_remove : ∀ book_id, lib_spec I E (remove_book book_id);
  inv_change : ∀ book_id new_status, lib_spec I E (change_status book_id new_status)
}.

(** The same for a step of [main], which besides takes lines off the
    input: at most [n] are left. *)
Definition sh_spec {A} (I : Library → Prop) (E : exn → Prop) (n : nat)
    (m : Sh A) : Prop :=
  ∀ c r c', I (library c) → (length (stdin c) ≤ n)%nat → m c = (r, c') →
    I (library c') ∧ (length (stdin c') ≤ n)%nat ∧
    match r with
    | Done _ => True
    | Failed (LibraryError e) => E e
    | Failed _ => True
    | Lost => False
    end.

(** A catalog fresh from the constructor where no file exists yet. *)
Definition empty_library : Library := mkLibrary [] NoFile true [].

(** The catalog the constructor builds on a file that holds [doc]. *)
Definition loaded (doc : json) : Library :=
  (Library_init (mkLibrary [] (Json doc) true [])).2.

(** A catalog loaded from a file whose records are not in id order. *)
Definition unordered_library : Library :=
  loaded (serialize [mkBook 5 "Emma" "Austen" 1815 AVAILABLE;
                     mkBook 2 "Ulysses" "Joyce" 1922 AVAILABLE]).

(** A catalog loaded from a file whose two records are in descending id
    order. *)
Definition swapped_library : Library :=
  loaded (serialize [mkBook 2 "Emma" "Austen" 1815 AVAILABLE;
                     mkBook 1 "Ulysses" "Joyce" 1922 AVAILABLE]).

(** A catalog loaded from a file in which two records share an id. *)
Definition duplicate_library : Library :=
  loaded (serialize [mkBook 1 "Emma" "Austen" 1815 AVAILABLE;
                     mkBook 1 "Ulysses" "Joyce" 1922 CHECKED_OUT]).

(** The catalog of the search example. *)
Definition python_library : Library :=
  loaded (serialize [mkBook 1 "Python Basics" "Author C" 2021 AVAILABLE;
                     mkBook 2 "Advanced Python" "Author D" 2020 AVAILABLE;
                     mkBook 3 "Cooking" "Author E" 2019 AVAILABLE]).

(** ** Notions and examples for the further properties *)

(** A catalog on a path that cannot be written. *)
Definition readonly_library : Library :=
  mkLibrary [mkBook 1 "Emma" "Austen" 1815 AVAILABLE] NoFile false [].

(** The text [search_books] looks into, for each attribute of a record. *)
Definition attr_text (field : string) (b : Book) : string :=
  if decide (field = "id") then str_of_int (id b)
  else if decide (field = "title") then title b
  else if decide (field = "author") then author b
  else if decide (field = "year") then str_of_int (year b)
  else status b.

Definition prompt_choice : string := "Выберите действие: ".

(** The loop is left normally only through the goodbye line. *)
Definition quits_politely (m : Sh control) : Prop :=
  ∀ c c', m c = (Done Quit, c') → last (stdout (library c')) = Some msg_goodbye.

(** The year [main] passes to [add_book] for the text typed: [int] of it
    when [isdigit] accepts it, 0 otherwise; [None] where [int] raises. *)
Definition typed_year (str_isdigit : string → bool) (py_int : string → option Z)
    (year_text : string) : option Z :=
  if str_isdigit year_text then py_int year_text else Some 0.

Definition prompt_title : string := "Введите название книги: ".
Definition prompt_author : string := "Введите автора книги: ".
Definition prompt_year : string := "Введите год издания книги: ".
Definition prompt_field : string := "Введите поле для поиска (title, author, year): ".
Definition prompt_keyword : string := "Введите ключевое слово для поиска: ".

Definition ascii_main : Console → option (outcome unit * Console) :=
  main lower_string ascii_implicit ascii_repr ascii_strip ascii_isdigit ascii_int.

Definition ascii_iteration (str_isdigit : string → bool) : Sh control :=
  iteration lower_string ascii_implicit ascii_repr ascii_strip str_isdigit ascii_int.

(** [str.isdigit] on ASCII text and on the superscript two, which it
    accepts and [int] rejects. *)
Definition superscript_isdigit (s : string) : bool :=
  ascii_isdigit s || bool_decide (s = "²").

(** A session on a new path: a book is added, lent, searched for, and the
    menu is left. *)
Definition session : Console :=
  mkConsole empty_library
    ["1"; "Emma"; "Austen"; "1815"; "5"; "1"; CHECKED_OUT; "3"; " Title"; "em"; "6"].

(** Unfolds a method down to the state it returns. *)
Ltac run :=
  repeat (unfold Library_init, load_books, save_books, add_book, remove_book,
            change_status, find_book_by_id, display_books, search_books,
            try_except, json_load, json_dump, get_books, set_books, print,
            lift, raise, mbind, M_bind, mret, M_ret in *;
          simpl in *).

(** * Properties *)

(** ** Strings *)

Lemma append_String (c : ascii) (s t : string) :
  String c s +:+ t = String c (s +:+ t).
Proof. done. Qed.

Lemma prefix_app (needle haystack : string) :
  String.prefix needle haystack = true ↔ ∃ after, haystack = needle +:+ after.
Proof.
  revert haystack. induction needle as [|c needle IH]; intros haystack.
  - destruct haystack; simpl; split; eauto.
  - destruct haystack as [|c' haystack]; simpl.
    + split; [done | intros [after ?]; done].
    + destruct (ascii_dec c c') as [->|Hne].
      * rewrite IH. split; intros [after H]; exists after;
          rewrite append_String in *; congruence.
      * split; [done | intros [after H]; rewrite append_String in H; congruence].
Qed.

Lemma str_contains_nil (needle : string) :
  str_contains needle "" = String.prefix needle "".
Proof. unfold str_contains. apply orb_false_r. Qed.

Lemma str_contains_cons (needle : string) (c : ascii) (rest : string) :
  str_contains needle (String c rest) =
  String.prefix needle (String c rest) || str_contains needle rest.
Proof. done. Qed.

Lemma str_contains_substring (needle haystack : string) :
  str_contains needle haystack = true ↔ substring needle haystack.
Proof.
  unfold substring. induction haystack as [|c haystack IH].
  - rewrite str_contains_nil, prefix_app. split.
    + intros [after ->]. by exists EmptyString, after.
    + intros ([|? before] & after & H); [by exists after | done].
  - rewrite str_contains_cons, orb_true_iff, prefix_app, IH. split.
    + intros [[after ->] | (before & after & ->)].
      * by exists EmptyString, after.
      * by exists (String c before), after.
    + intros ([|c' before] & after & H).
      * left. by exists after.
      * right. rewrite append_String in H. injection H as -> ->. by exists before, after.
Qed.

Lemma substring_empty (haystack : string) : substring "" haystack.
Proof. by exists EmptyString, haystack. Qed.


(** [selects] determines the hits: they are a function of the catalog, hold
    the records that satisfy the predicate and no others, and keep the
    catalog's order. *)
Lemma selects_unique (P : Book → Prop) (bs hits1 hits2 : list Book) :
  selects P bs hits1 → selects P bs hits2 → hits1 = hits2.
Proof.
  intros H1. revert hits2.
  induction H1 as [|b bs hits ? ? IH|b bs hits ? ? IH]; intros hits2 H2;
    inversion H2; subst; try done.
  - f_equal. by apply IH.
  - by apply IH.
Qed.

Lemma selects_elem_of (P : Book → Prop) (bs hits : list Book) (x : Book) :
  selects P bs hits → x ∈ hits ↔ x ∈ bs ∧ P x.
Proof.
  induction 1 as [|b bs hits Hb _ IH|b bs hits Hb _ IH].
  - rewrite elem_of_nil. tauto.
  - rewrite !elem_of_cons, IH. split.
    + intros [-> | [? ?]]; auto.
    + intros [[-> | ?] ?]; auto.
  - rewrite elem_of_cons, IH. split.
    + intros [? ?]; auto.
    + intros [[-> | ?] ?]; [done | auto].
Qed.

Lemma selects_sublist (P : Book → Prop) (bs hits : list Book) :
  selects P bs hits → hits `sublist_of` bs.
Proof. induction 1; by constructor. Qed.

(** ** Running a method *)

Lemma from_dict_to_dict (b : Book) : from_dict (to_dict b) = Ok b.
Proof. by destruct b. Qed.

Lemma from_dicts_to_dicts (bs : list Book) : from_dicts (to_dict <$> bs) = Ok bs.
Proof.
  induction bs as [|b bs IH]; [done |].
  rewrite fmap_cons. cbn [from_dicts]. rewrite from_dict_to_dict. simpl.
  by rewrite IH.
Qed.

Lemma save_books_writable (st : Library) :
  writable st = true →
  save_books st =
    (Ok PyNone, mkLibrary (books st) (Json (serialize (books st))) true (stdout st)).
Proof. intros Hw. run. by rewrite Hw. Qed.

Lemma save_books_unwritable (st : Library) :
  writable st = false → save_books st = (Raise OSError, st).
Proof. intros Hw. run. by rewrite Hw. Qed.

(** ** Catalogs with ascending ids *)

Lemma find_None_iff (book_id : Z) (bs : list Book) :
  list_find (λ b, id b = book_id) bs = None ↔ book_id ∉ ids bs.
Proof.
  rewrite list_find_None, Forall_forall. unfold ids. split.
  - intros H (b & -> & Hb)%list_elem_of_fmap. by apply (H b).
  - intros H b Hb <-. apply H. by apply list_elem_of_fmap_2.
Qed.

Lemma find_Some_present (book_id : Z) (bs : list Book) :
  book_id ∈ ids bs → is_Some (list_find (λ b, id b = book_id) bs).
Proof.
  intros Hin. destruct (list_find _ bs) eqn:Hfind; [done |].
  by apply find_None_iff in Hfind.
Qed.

Lemma StronglySorted_delete {A} (R : relation A) (l : list A) (i : nat) :
  StronglySorted R l → StronglySorted R (delete i l).
Proof.
  revert i. induction l as [|x l IH]; intros i; [done |].
  rewrite StronglySorted_cons. intros [Hx Hl].
  destruct i as [|i]; [done |]. simpl.
  apply StronglySorted_cons. split; [| by apply IH].
  apply Forall_forall. intros y Hy%list_elem_of_delete_inv.
  by eapply Forall_forall in Hx.
Qed.

Lemma ascending_nil : ascending [].
Proof. constructor. Qed.

Lemma ascending_delete (bs : list Book) (i : nat) :
  ascending bs → ascending (delete i bs).
Proof.
  unfold ascending, ids. rewrite list_fmap_delete. apply StronglySorted_delete.
Qed.

Lemma ids_set_status (new_status : string) (bs : list Book) (i : nat) :
  ids (alter (set_status new_status) i bs) = ids bs.
Proof.
  unfold ids. revert i. induction bs as [|b bs IH]; intros [|i]; try done.
  change (id b :: (id <$> alter (set_status new_status) i bs) = id b :: (id <$> bs)).
  by rewrite IH.
Qed.

Lemma ascending_set_status (new_status : string) (bs : list Book) (i : nat) :
  ascending bs → ascending (alter (set_status new_status) i bs).
Proof. unfold ascending. by rewrite ids_set_status. Qed.

Lemma ascending_NoDup (bs : list Book) : ascending bs → NoDup (ids bs).
Proof.
  unfold ascending. generalize (ids bs). intros l.
  induction l as [|x l IH]; [constructor |].
  rewrite StronglySorted_cons, NoDup_cons. intros [Hx Hl]. split; [| by apply IH].
  intros Hin. eapply Forall_forall in Hx; [| done]. lia.
Qed.

(** In an ascending catalog the last record has the greatest id. *)
Lemma ascending_last_greatest (bs : list Book) (l : Book) :
  ascending bs → last bs = Some l → ∀ b, b ∈ bs → id b ≤ id l.
Proof.
  intros Hasc (front & ->)%last_Some b Hb.
  unfold ascending, ids in Hasc. rewrite fmap_app in Hasc.
  apply elem_of_app in Hb as [Hb | ->%list_elem_of_singleton]; [| lia].
  apply Z.lt_le_incl.
  eapply (StronglySorted_app_1_elem_of _ _ _ (id b) (id l)) in Hasc; [done | |].
  - by apply list_elem_of_fmap_2.
  - simpl. apply list_elem_of_singleton. done.
Qed.

Lemma max_id_ge (b : Book) (rest : list Book) (x : Book) :
  x ∈ b :: rest → id x ≤ max_id b rest.
Proof.
  unfold max_id. induction rest as [|b' rest IH]; simpl.
  - intros ->%list_elem_of_singleton. lia.
  - intros [-> | [-> | Hx]%elem_of_cons]%elem_of_cons.
    + etrans; [apply IH; left |]. lia.
    + lia.
    + etrans; [apply IH; by right |]. lia.
Qed.

Lemma max_id_elem (b : Book) (rest : list Book) :
  ∃ x, x ∈ b :: rest ∧ max_id b rest = id x.
Proof.
  unfold max_id. induction rest as [|b' rest (x & Hx & IH)]; simpl.
  - exists b. split; [left | done].
  - destruct (Z.max_spec (id b') (foldr (λ b'0 m, Z.max (id b'0) m) (id b) rest))
      as [[_ ->] | [_ ->]].
    + exists x. split; [| done].
      apply elem_of_cons in Hx as [-> | Hx]; [left | right; by right].
    + exists b'. split; [right; left | done].
Qed.

(** On an ascending catalog the id chosen by the program is the one the
    specification asks for. *)
Lemma next_id_ascending (bs : list Book) :
  ascending bs → next_id bs = spec_next_id bs.
Proof.
  intros Hasc. unfold next_id, spec_next_id.
  destruct bs as [|b rest]; [done |].
  destruct (last (b :: rest)) as [l|] eqn:Hlast; [| by apply last_None in Hlast].
  destruct (max_id_elem b rest) as (x & Hx & Heq).
  pose proof (ascending_last_greatest _ _ Hasc Hlast x Hx) as Hle.
  pose proof (max_id_ge b rest l (last_Some_elem_of _ _ Hlast)) as Hge.
  rewrite Heq in *. lia.
Qed.

Lemma ascending_snoc (bs : list Book) (b : Book) :
  ascending bs → id b = next_id bs → ascending (bs ++ [b]).
Proof.
  intros Hasc Hid. unfold ascending, ids. rewrite fmap_app.
  apply StronglySorted_app_2; [| done | repeat constructor].
  intros x1 x2 (b1 & -> & Hb1)%list_elem_of_fmap Hx2.
  apply list_elem_of_singleton in Hx2 as ->. rewrite Hid. unfold next_id.
  destruct (last bs) as [l|] eqn:Hlast.
  - pose proof (ascending_last_greatest _ _ Hasc Hlast b1 Hb1). lia.
  - apply last_None in Hlast as ->. by apply elem_of_nil in Hb1.
Qed.

(** Once the first record with an id is deleted, no record has that id,
    provided ids are pairwise distinct. *)
Lemma find_after_delete (book_id : Z) (bs : list Book) (ref : nat) (b : Book) :
  NoDup (ids bs) →
  list_find (λ b, id b = book_id) bs = Some (ref, b) →
  list_find (λ b, id b = book_id) (delete ref bs) = None.
Proof.
  intros Hnd (Hlook & Hid & _)%list_find_Some.
  apply list_find_None, Forall_forall. intros x Hx Hidx.
  apply list_elem_of_lookup in Hx as [j Hj].
  assert (Href : ids bs !! ref = Some book_id).
  { unfold ids. by rewrite list_lookup_fmap, Hlook, <- Hid. }
  destruct (decide (j < ref)%nat) as [Hlt | Hge].
  - rewrite list_lookup_delete_lt in Hj by done.
    assert (ids bs !! j = Some book_id).
    { unfold ids. by rewrite list_lookup_fmap, Hj, <- Hidx. }
    pose proof (NoDup_lookup _ _ _ _ Hnd Href H). lia.
  - rewrite list_lookup_delete_ge in Hj by lia.
    assert (ids bs !! S j = Some book_id).
    { unfold ids. by rewrite list_lookup_fmap, Hj, <- Hidx. }
    pose proof (NoDup_lookup _ _ _ _ Hnd Href H). lia.
Qed.


(** ** Adding a record *)

(** [add_book] appends the record it builds whether or not saving succeeds. *)
Lemma add_book_appends (t a : string) (y : Z) (st : Library)
    (r : result pyobj) (st' : Library) :
  add_book t a y st = (r, st') →
  books st' = books st ++ [mkBook (next_id (books st)) t a y AVAILABLE].
Proof. run. destruct (writable st); by intros [= <- <-]. Qed.

Lemma add_book_writable (t a : string) (y : Z) (st : Library) :
  writable st = true →
  let b := mkBook (next_id (books st)) t a y AVAILABLE in
  add_book t a y st =
    (Ok PyNone,
     mkLibrary (books st ++ [b]) (Json (serialize (books st ++ [b]))) true
               (stdout st ++ [msg_added b])).
Proof. intros Hw. run. by rewrite Hw. Qed.

(** Where the file cannot be written, [add_book] raises after the record
    was appended: the catalog in memory has it, the file has not, and
    nothing is printed. *)
Lemma add_book_unwritable (t a : string) (y : Z) (st : Library) :
  writable st = false →
  add_book t a y st =
    (Raise OSError,
     mkLibrary (books st ++ [mkBook (next_id (books st)) t a y AVAILABLE])
               (data_file st) (writable st) (stdout st)).
Proof. intros Hw. run. by rewrite Hw. Qed.

(** What [add_book] does assign: the id of the last record plus one, or 1
    in an empty catalog. Where ids ascend along the catalog this is one more
    than the greatest id, and ids still ascend afterwards. *)
Lemma add_book_id (t a : string) (y : Z) (st : Library)
    (r : result pyobj) (st' : Library) :
  add_book t a y st = (r, st') →
  ∃ b, books st' = books st ++ [b] ∧
       title b = t ∧ author b = a ∧ year b = y ∧ status b = AVAILABLE ∧
       id b = match last (books st) with None => 1 | Some l => id l + 1 end ∧
       (ascending (books st) →
        id b = spec_next_id (books st) ∧ ascending (books st')).
Proof.
  intros Hrun. apply add_book_appends in Hrun.
  eexists. split; [exact Hrun |]. simpl. split_and!; try done.
  intros Hasc. split.
  - by apply next_id_ascending.
  - rewrite Hrun. by apply ascending_snoc.
Qed.

(** C1 fails on the program. [add_book] takes the id of the last record, not
    the greatest one. After records with ids 5 and 2, in that order, the new
    record gets id 3, while one more than the greatest id is 6; two more
    additions reach id 5 a second time. After records with ids 2 and 1 the
    first addition already repeats id 2. The ids of the catalog are then no
    longer unique, which the class [Book] documents them to be. *)
Theorem add_book_repeats_id :
  ids (books (add_book "Dune" "Herbert" 1965 unordered_library).2) = [5; 2; 3] ∧
  spec_next_id (books unordered_library) = 6 ∧
  ids (books (add_book "Solaris" "Lem" 1961
               (add_book "Kindred" "Butler" 1979
                 (add_book "Dune" "Herbert" 1965 unordered_library).2).2).2) =
    [5; 2; 3; 4; 5] ∧
  ids (books (add_book "Dune" "Herbert" 1965 swapped_library).2) = [2; 1; 2] ∧
  spec_next_id (books swapped_library) = 3 ∧
  ¬ NoDup (ids (books (add_book "Dune" "Herbert" 1965 swapped_library).2)).
Proof.
  split_and!; try reflexivity.
  change (¬ NoDup [2; 1; 2]).
  intros [Hnot _]%NoDup_cons. apply Hnot. right. left.
Qed.

(** C9, as amended. When the file can be written, [add_book] appends the
    new record at the end, leaves the file holding the whole catalog, prints
    a line naming the title and the year, and returns [None]. *)
Theorem add_book_appends_and_saves (t a : string) (y : Z) (st : Library) :
  writable st = true →
  ∃ b st',
    add_book t a y st = (Ok PyNone, st') ∧
    title b = t ∧ author b = a ∧ year b = y ∧
    books st' = books st ++ [b] ∧
    data_file st' = Json (serialize (books st')) ∧
    stdout st' = stdout st ++ [msg_added b].
Proof.
  intros Hw. eexists (mkBook _ t a y AVAILABLE), _.
  split; [by apply add_book_writable |]. done.
Qed.

Lemma add_book_appends_and_saves_witness :
  writable unordered_library = true ∧
  ∃ b st',
    add_book "Dune" "Herbert" 1965 unordered_library = (Ok PyNone, st') ∧
    title b = "Dune" ∧ author b = "Herbert" ∧ year b = 1965 ∧
    books st' = books unordered_library ++ [b] ∧
    data_file st' = Json (serialize (books st')) ∧
    stdout st' = stdout unordered_library ++ [msg_added b].
Proof.
  split; [reflexivity |].
  apply (add_book_appends_and_saves "Dune" "Herbert" 1965 unordered_library).
  reflexivity.
Defined.

(** C9 as stated fails: the caller of [add_book] receives [None], not the
    record that was created. *)
Lemma add_book_returns_none :
  (add_book "Emma" "Austen" 1815 empty_library).1 = Ok PyNone ∧
  (add_book "Emma" "Austen" 1815 empty_library).1 ≠
    Ok (PyBook (mkBook 1 "Emma" "Austen" 1815 AVAILABLE)).
Proof. split; [reflexivity | discriminate]. Qed.

(** ** Loading and saving *)

(** Where the file is absent or is not JSON, the constructor leaves an empty
    catalog and raises nothing. *)
Lemma init_missing_or_not_json (st : Library) :
  data_file st = NoFile ∨ data_file st = NotJson →
  Library_init st =
    (Ok PyNone, mkLibrary [] (data_file st) (writable st) (stdout st)).
Proof. intros [H | H]; run; by rewrite H. Qed.

(** C2 fails on the program: a file that is valid JSON but holds a record
    without its ["id"] makes the constructor raise [KeyError], an exception
    the handler of [load_books] does not list. *)
Theorem init_record_without_id_raises :
  Library_init (mkLibrary [] (Json (JList [JDict [("title", JStr "Emma")]])) true []) =
    (Raise (KeyError "id"),
     mkLibrary [] (Json (JList [JDict [("title", JStr "Emma")]])) true []).
Proof. reflexivity. Qed.

(** Other contents that escape the handler: a JSON object at top level, and
    bytes that are not UTF-8. *)
Lemma init_escapes_handler :
  (Library_init (mkLibrary [] (Json (JDict [("books", JList [])])) true [])).1 =
    Raise TypeError ∧
  (Library_init (mkLibrary [] NotText true [])).1 = Raise UnicodeDecodeError.
Proof. split; reflexivity. Qed.

(** C3. After [save_books] has written the file, a [Library] constructed
    anew on the same path, whatever its memory held before, holds the
    records that were saved, field by field and in the same order. *)
Theorem save_then_load (st fresh : Library) :
  writable st = true →
  data_file fresh = data_file (save_books st).2 →
  (save_books st).1 = Ok PyNone ∧
  ∃ st2, Library_init fresh = (Ok PyNone, st2) ∧ books st2 = books st.
Proof.
  intros Hw. rewrite (save_books_writable st Hw). simpl. intros Hfile.
  split; [done |].
  exists (mkLibrary (books st) (data_file fresh) (writable fresh) (stdout fresh)).
  split; [| done].
  run. rewrite Hfile. unfold serialize. simpl.
  rewrite from_dicts_to_dicts. done.
Qed.

Lemma save_then_load_witness :
  writable python_library = true ∧
  data_file (mkLibrary (books duplicate_library)
                       (data_file (save_books python_library).2) false ["x"]) =
    data_file (save_books python_library).2 ∧
  (save_books python_library).1 = Ok PyNone ∧
  ∃ st2,
    Library_init (mkLibrary (books duplicate_library)
                            (data_file (save_books python_library).2) false ["x"]) =
      (Ok PyNone, st2) ∧
    books st2 = books python_library.
Proof.
  split; [reflexivity |]. split; [reflexivity |].
  exact (save_then_load python_library
           (mkLibrary (books duplicate_library)
                      (data_file (save_books python_library).2) false ["x"])
           eq_refl eq_refl).
Defined.

(** C4. A call of [add_book], of [remove_book] on a present id, or of
    [change_status] on a present id with a valid status ends in one of two
    ways. On a path that can be written it returns [None], and the file then
    holds every record of the catalog as it is at the return. On a path
    that cannot be written it raises [OSError] and the file is as before.
    It never returns without the file having been written. *)
Theorem mutation_is_saved (st : Library) (r : result pyobj) (st' : Library) :
  (∃ t a y, add_book t a y st = (r, st')) ∨
  (∃ book_id, book_id ∈ ids (books st) ∧
     remove_book book_id st = (r, st')) ∨
  (∃ book_id new_status,
     book_id ∈ ids (books st) ∧ valid_status new_status = true ∧
     change_status book_id new_status st = (r, st')) →
  writable st = true ∧ r = Ok PyNone ∧
    data_file st' = Json (serialize (books st')) ∨
  writable st = false ∧ r = Raise OSError ∧ data_file st' = data_file st.
Proof.
  intros [(t & a & y & Hrun) | [(i & Hin & Hrun) | (i & s & Hin & Hs & Hrun)]].
  - revert Hrun. run. destruct (writable st); intros [= <- <-]; auto.
  - revert Hrun. apply find_Some_present in Hin as [[ref b] Hfind].
    run. rewrite Hfind. simpl. destruct (writable st); intros [= <- <-]; auto.
  - revert Hrun. apply find_Some_present in Hin as [[ref b] Hfind].
    run. rewrite Hfind, Hs. simpl. destruct (writable st); intros [= <- <-]; auto.
Qed.

Lemma mutation_is_saved_witness :
  (2 ∈ ids (books unordered_library) ∧ valid_status CHECKED_OUT = true ∧
   change_status 2 CHECKED_OUT unordered_library =
     ((change_status 2 CHECKED_OUT unordered_library).1,
      (change_status 2 CHECKED_OUT unordered_library).2)) ∧
  (writable unordered_library = true ∧
   (change_status 2 CHECKED_OUT unordered_library).1 = Ok PyNone ∧
   data_file (change_status 2 CHECKED_OUT unordered_library).2 =
     Json (serialize (books (change_status 2 CHECKED_OUT unordered_library).2)) ∨
   writable unordered_library = false ∧
   (change_status 2 CHECKED_OUT unordered_library).1 = Raise OSError ∧
   data_file (change_status 2 CHECKED_OUT unordered_library).2 =
     data_file unordered_library).
Proof.
  assert (H : 2 ∈ ids (books unordered_library) ∧ valid_status CHECKED_OUT = true ∧
              change_status 2 CHECKED_OUT unordered_library =
                ((change_status 2 CHECKED_OUT unordered_library).1,
                 (change_status 2 CHECKED_OUT unordered_library).2)).
  { split; [| split; reflexivity]. apply (bool_decide_unpack _). reflexivity. }
  split; [exact H |].
  apply (mutation_is_saved unordered_library). right. right.
  exists 2, CHECKED_OUT. exact H.
Defined.

(** ** Removing a record *)

(** C6. [remove_book] on an id no record has prints the not-found line,
    raises nothing, and leaves the catalog and the file as they were. *)
Theorem remove_book_absent (book_id : Z) (st : Library) :
  book_id ∉ ids (books st) →
  remove_book book_id st = (Ok PyNone, say st [msg_not_found book_id]) ∧
  books (remove_book book_id st).2 = books st.
Proof.
  intros Hnot%find_None_iff. run. rewrite Hnot. done.
Qed.

Lemma remove_book_absent_witness :
(999 ∉ ids (books unordered_library)) ∧
  remove_book 999 unordered_library =
    (Ok PyNone, say unordered_library [msg_not_found 999]) ∧
  books (remove_book 999 unordered_library).2 = books unordered_library.
Proof.
  assert (H : 999 ∉ ids (books unordered_library)).
  { apply (bool_decide_unpack _). reflexivity. }
  split; [exact H | apply (remove_book_absent 999 unordered_library H)].
Defined.

(** C7, as amended. In a catalog whose ids are pairwise distinct, after
    [remove_book] on a present id (whether or not saving succeeds),
    [find_book_by_id] on that id returns [None]. *)
Theorem remove_then_find (book_id : Z) (st : Library)
    (r : result pyobj) (st' : Library) :
  NoDup (ids (books st)) →
  book_id ∈ ids (books st) →
  remove_book book_id st = (r, st') →
  find_book_by_id book_id st' = (Ok None, st').
Proof.
  intros Hnd [[ref b] Hfind]%find_Some_present.
  pose proof (find_after_delete _ _ _ _ Hnd Hfind) as Hgone.
  run. rewrite Hfind. simpl.
  destruct (writable st); intros [= <- <-]; simpl; by rewrite Hgone.
Qed.

Lemma remove_then_find_witness :
  NoDup (ids (books unordered_library)) ∧
  5 ∈ ids (books unordered_library) ∧
  find_book_by_id 5 (remove_book 5 unordered_library).2 =
    (Ok None, (remove_book 5 unordered_library).2).
Proof.
  assert (Hnd : NoDup (ids (books unordered_library))).
  { apply (bool_decide_unpack _). reflexivity. }
  assert (Hin : 5 ∈ ids (books unordered_library)).
  { apply (bool_decide_unpack _). reflexivity. }
  split_and!; [done.. |].
  by apply (remove_then_find 5 unordered_library (remove_book 5 unordered_library).1).
Defined.

(** C7 as stated fails: where two records share id 1, [remove_book 1]
    deletes the first and [find_book_by_id 1] then returns the second. *)
Lemma remove_then_find_duplicate :
  1 ∈ ids (books duplicate_library) ∧
  (find_book_by_id 1 (remove_book 1 duplicate_library).2).1 =
    Ok (Some (0%nat, mkBook 1 "Ulysses" "Joyce" 1922 CHECKED_OUT)).
Proof. split; [apply (bool_decide_unpack _) |]; reflexivity. Qed.

(** The catalogs the program itself builds have ascending, hence pairwise
    distinct, ids: the empty catalog has, and the three mutating methods keep
    them so. *)
Lemma mutations_keep_ascending (st : Library) (r : result pyobj) (st' : Library) :
  ascending (books st) →
  (∃ t a y, add_book t a y st = (r, st')) ∨
  (∃ book_id, remove_book book_id st = (r, st')) ∨
  (∃ book_id new_status, change_status book_id new_status st = (r, st')) →
  ascending (books st').
Proof.
  intros Hasc [(t & a & y & Hrun) | [(i & Hrun) | (i & s & Hrun)]].
  - rewrite (add_book_appends _ _ _ _ _ _ Hrun). by apply ascending_snoc.
  - revert Hrun. run. destruct (list_find _ _) as [[ref b]|]; simpl.
    + destruct (writable st); intros [= <- <-]; by apply ascending_delete.
    + by intros [= <- <-].
  - revert Hrun. run. destruct (list_find _ _) as [[ref b]|]; simpl.
    + destruct (valid_status s); simpl; [| by intros [= <- <-]].
      destruct (writable st); intros [= <- <-]; by apply ascending_set_status.
    + by intros [= <- <-].
Qed.

(** ** Changing a status *)

(** C5, as amended. With a status that is neither of the two valid ones,
    [change_status] prints the invalid-status line when the id is present
    and the not-found line when it is absent; either way it raises nothing
    and leaves every record and the file as they were. *)
Theorem change_status_invalid (book_id : Z) (new_status : string) (st : Library) :
  new_status ∉ [AVAILABLE; CHECKED_OUT] →
  change_status book_id new_status st =
    (Ok PyNone,
     say st [if decide (book_id ∈ ids (books st))
             then msg_bad_status else msg_not_found book_id]) ∧
  books (change_status book_id new_status st).2 = books st ∧
  data_file (change_status book_id new_status st).2 = data_file st.
Proof.
  intros Hbad.
  assert (Hs : valid_status new_status = false) by by apply bool_decide_eq_false.
  run. destruct (list_find _ _) as [[ref b]|] eqn:Hfind; simpl.
  - rewrite Hs. simpl. rewrite decide_True; [done |].
    apply dec_stable. intros Hnot%find_None_iff. congruence.
  - apply find_None_iff in Hfind. by rewrite decide_False.
Qed.

Lemma change_status_invalid_witness :
  ("lost" ∉ [AVAILABLE; CHECKED_OUT]) ∧
  change_status 2 "lost" unordered_library =
    (Ok PyNone, say unordered_library [msg_bad_status]) ∧
  books (change_status 2 "lost" unordered_library).2 = books unordered_library ∧
  data_file (change_status 2 "lost" unordered_library).2 =
    data_file unordered_library.
Proof.
  assert (H : "lost" ∉ [AVAILABLE; CHECKED_OUT]).
  { apply (bool_decide_unpack _). reflexivity. }
  split; [exact H | apply (change_status_invalid 2 "lost" unordered_library H)].
Defined.

(** C5 as stated fails for an absent id: the line printed is the not-found
    one, not the invalid-status one. *)
Lemma change_status_invalid_absent :
  ("lost" ∉ [AVAILABLE; CHECKED_OUT]) ∧
  stdout (change_status 999 "lost" empty_library).2 = [msg_not_found 999] ∧
  msg_not_found 999 ≠ msg_bad_status.
Proof.
  split_and!; [| reflexivity | discriminate].
  apply (bool_decide_unpack _). reflexivity.
Qed.

(** ** Searching *)

Lemma say_nil (st : Library) : say st [] = st.
Proof. destruct st. unfold say. simpl. by rewrite app_nil_r. Qed.

Lemma say_say (st : Library) (l1 l2 : list string) :
  say (say st l1) l2 = say st (l1 ++ l2).
Proof. unfold say. simpl. by rewrite app_assoc. Qed.

Lemma print_all_say (lines : list string) (st : Library) :
  print_all lines st = (Ok (), say st lines).
Proof.
  revert st. induction lines as [|line rest IH]; intros st.
  - by rewrite say_nil.
  - cbn [print_all]. unfold mbind, M_bind. change (print line st) with (Ok (), say st [line]).
    cbv iota beta. by rewrite IH, say_say.
Qed.

Section SearchProperties.
Variable str_lower : string → string.
Variable implicit_attr : string → bool.
Variable obj_repr : string → Book → string.

Lemma matches_searchable (keyword field : string) (b : Book) :
  searchable field →
  matches str_lower implicit_attr obj_repr keyword field b =
    Ok (str_contains (str_lower keyword) (str_lower (field_text field b))).
Proof.
  unfold searchable. rewrite !elem_of_cons, elem_of_nil.
  by intros [-> | [-> | [-> | []]]].
Qed.

Lemma search_results_searchable (keyword field : string) (bs : list Book) :
  searchable field →
  ∃ hits,
    selects (contains_keyword str_lower keyword field) bs hits ∧
    search_results str_lower implicit_attr obj_repr keyword field bs = Ok hits.
Proof.
  intros Hfield. induction bs as [|b bs (hits & Hsel & IH)].
  - exists []. split; [constructor | done].
  - cbn [search_results]. rewrite (matches_searchable _ _ _ Hfield), IH. simpl.
    destruct (str_contains _ _) eqn:Hhit.
    + exists (b :: hits). split; [| done].
      apply selects_keep; [| done]. by apply str_contains_substring.
    + exists hits. split; [| done].
      apply selects_skip; [| done].
      unfold contains_keyword. rewrite <- str_contains_substring. congruence.
Qed.

Lemma search_books_searchable (keyword field : string) (st : Library) :
  searchable field →
  ∃ hits,
    selects (contains_keyword str_lower keyword field) (books st) hits ∧
    search_books str_lower implicit_attr obj_repr keyword field st =
      (Ok PyNone, say st (report keyword hits)).
Proof.
  intros Hfield.
  destruct (search_results_searchable keyword field (books st) Hfield)
    as (hits & Hsel & Hres).
  exists hits. split; [done |].
  unfold search_books, get_books, lift, mbind, M_bind. rewrite Hres. cbv iota beta.
  destruct hits as [|hit hits]; [done |].
  unfold display_books, get_books, mbind, M_bind. cbv iota beta.
  by rewrite print_all_say.
Qed.

(** A field that [getattr] does not resolve ends the search at the first
    record. *)
Lemma search_results_unknown (keyword field : string) (b : Book) (rest : list Book) :
  field ∉ record_attrs → field ∉ class_attrs → implicit_attr field = false →
  search_results str_lower implicit_attr obj_repr keyword field (b :: rest) =
    Raise AttributeError.
Proof.
  unfold record_attrs. rewrite !not_elem_of_cons. intros (?&?&?&?&?&_) Hclass Himpl.
  cbn [search_results]. unfold matches, getattr.
  rewrite !decide_False by done.
  by rewrite (bool_decide_eq_false_2 _ Hclass), Himpl.
Qed.

(** A name bound by the class is resolved, so the search does not fail. *)
Lemma search_results_class_attr (keyword field : string) (bs : list Book) :
  field ∈ class_attrs →
  ∃ hits, search_results str_lower implicit_attr obj_repr keyword field bs = Ok hits.
Proof.
  intros Hclass. induction bs as [|b bs [hits IH]]; [by eexists |].
  cbn [search_results]. rewrite IH.
  assert (∃ v, getattr implicit_attr b field = Ok v) as [v Hv].
  { unfold getattr. repeat case_decide; eauto.
    rewrite (bool_decide_eq_true_2 _ Hclass). simpl. eauto. }
  unfold matches. rewrite Hv. simpl. eauto.
Qed.

Lemma search_books_class_attr (keyword field : string) (st : Library) :
  field ∈ class_attrs →
  (search_books str_lower implicit_attr obj_repr keyword field st).1 = Ok PyNone.
Proof.
  intros Hclass. unfold search_books, get_books, lift, mbind, M_bind.
  destruct (search_results_class_attr keyword field (books st) Hclass) as [hits ->].
  cbv iota beta. destruct hits as [|hit hits]; [done |].
  unfold display_books, get_books, mbind, M_bind. cbv iota beta.
  by rewrite print_all_say.
Qed.

(** C10, as amended. On a catalog that is not empty, [search_books] with a
    field name that is neither an attribute set by [Book.__init__], nor a
    name bound by the class, nor a name every object answers to, raises
    [AttributeError]; nothing is printed or written. *)
Theorem search_books_unknown_field (keyword field : string) (st : Library) :
  books st ≠ [] →
  field ∉ record_attrs → field ∉ class_attrs → implicit_attr field = false →
  search_books str_lower implicit_attr obj_repr keyword field st =
    (Raise AttributeError, st).
Proof.
  intros Hne Hrec Hclass Himpl. destruct (books st) as [|b rest] eqn:Hbooks; [done |].
  unfold search_books, get_books, lift, mbind, M_bind. rewrite Hbooks.
  by rewrite (search_results_unknown _ _ _ _ Hrec Hclass Himpl).
Qed.

(** [str.lower] on text that is all ASCII. *)
Hypothesis lower_on_ascii : ∀ s, is_ascii s = true → str_lower s = lower_string s.

Lemma selects_empty_keyword (field : string) (bs : list Book) :
  selects (contains_keyword str_lower "" field) bs bs.
Proof.
  induction bs as [|b bs IH]; constructor; [| done].
  unfold contains_keyword. rewrite (lower_on_ascii "") by done. apply substring_empty.
Qed.

Lemma selects_python (b1 b2 b3 : Book) :
  title b1 = "Python Basics" → title b2 = "Advanced Python" → title b3 = "Cooking" →
  selects (contains_keyword str_lower "Python" "title") [b1; b2; b3] [b1; b2].
Proof.
  intros H1 H2 H3.
  repeat first [apply selects_keep | apply selects_skip | apply selects_nil];
    unfold contains_keyword; change (field_text "title") with title;
    rewrite ?H1, ?H2, ?H3, !lower_on_ascii by done;
    rewrite <- str_contains_substring; by vm_compute.
Qed.

(** C8, as amended. For a field among title, author and year,
    [search_books] prints, and does not return, exactly the records whose
    field, rendered as text, contains the keyword as a substring once both
    are lower-cased: one line per record in catalog order, or the
    no-results line when there is none; it returns [None]. The empty
    keyword selects every record, and keyword Python on the titles Python
    Basics, Advanced Python, Cooking selects the first two, in order. *)
Theorem search_books_prints_hits :
  (∀ keyword field st,
     searchable field →
     ∃ hits,
       selects (contains_keyword str_lower keyword field) (books st) hits ∧
       search_books str_lower implicit_attr obj_repr keyword field st =
         (Ok PyNone, say st (report keyword hits))) ∧
  (∀ field bs, selects (contains_keyword str_lower "" field) bs bs) ∧
  (∀ b1 b2 b3,
     title b1 = "Python Basics" → title b2 = "Advanced Python" →
     title b3 = "Cooking" →
     selects (contains_keyword str_lower "Python" "title") [b1; b2; b3] [b1; b2]).
Proof.
  split_and!.
  - apply search_books_searchable.
  - apply selects_empty_keyword.
  - apply selects_python.
Qed.
End SearchProperties.

Lemma lower_string_on_ascii (s : string) :
  is_ascii s = true → lower_string s = lower_string s.
Proof. done. Qed.

Lemma search_books_prints_hits_witness :
  (∀ s, is_ascii s = true → lower_string s = lower_string s) ∧
  searchable "title" ∧
  ∃ hits,
    selects (contains_keyword lower_string "Python" "title") (books python_library) hits ∧
    search_books lower_string ascii_implicit ascii_repr "Python" "title" python_library =
      (Ok PyNone, say python_library (report "Python" hits)).
Proof.
  assert (Hfield : searchable "title") by left.
  split_and!; [exact lower_string_on_ascii | exact Hfield |].
  exact (proj1 (search_books_prints_hits lower_string ascii_implicit ascii_repr
                  lower_string_on_ascii)
           "Python" "title" python_library Hfield).
Defined.

(** What the example search prints: the lines of the first two records. *)
Lemma search_books_python_output :
  stdout (search_books lower_string ascii_implicit ascii_repr
            "Python" "title" python_library).2 =
    [book_line (mkBook 1 "Python Basics" "Author C" 2021 AVAILABLE);
     book_line (mkBook 2 "Advanced Python" "Author D" 2020 AVAILABLE)].
Proof. reflexivity. Qed.

(** C8 as stated fails: the caller of [search_books] receives [None], not
    the matching records, which are only printed. *)
Lemma search_books_returns_none :
  (search_books lower_string ascii_implicit ascii_repr "Python" "title" python_library).1 =
    Ok PyNone ∧
  (search_books lower_string ascii_implicit ascii_repr "Python" "title" python_library).1 ≠
    Ok (PyBooks [mkBook 1 "Python Basics" "Author C" 2021 AVAILABLE;
                 mkBook 2 "Advanced Python" "Author D" 2020 AVAILABLE]).
Proof. split; [reflexivity | discriminate]. Qed.

Lemma search_books_unknown_field_witness :
  books python_library ≠ [] ∧
  ("isbn" ∉ record_attrs) ∧ ("isbn" ∉ class_attrs) ∧ ascii_implicit "isbn" = false ∧
  search_books lower_string ascii_implicit ascii_repr "Python" "isbn" python_library =
    (Raise AttributeError, python_library).
Proof.
  assert (Hne : books python_library ≠ []) by discriminate.
  assert (Hrec : "isbn" ∉ record_attrs) by (apply (bool_decide_unpack _); reflexivity).
  assert (Hclass : "isbn" ∉ class_attrs) by (apply (bool_decide_unpack _); reflexivity).
  split_and!; [done.. | reflexivity |].
  exact (search_books_unknown_field lower_string ascii_implicit ascii_repr
           "Python" "isbn" python_library Hne Hrec Hclass eq_refl).
Defined.

(** C10 as stated fails: [to_dict] is none of id, title, author, year and
    status, yet [getattr] resolves it to the method of that name, and the
    search ends normally. *)
Lemma search_books_method_name :
  books python_library ≠ [] ∧
  ("to_dict" ∉ record_attrs) ∧
  (search_books lower_string ascii_implicit ascii_repr "Python" "to_dict" python_library).1 =
    Ok PyNone.
Proof.
  split_and!; [discriminate | apply (bool_decide_unpack _); reflexivity |].
  apply search_books_class_attr. right. left.
Qed.

(** * Further properties of the library *)

(** ** Looking a record up *)

(** The first record with an id splits the catalog around it. *)
Lemma find_first_split (book_id : Z) (bs : list Book) (ref : nat) (b : Book) :
  list_find (λ b, id b = book_id) bs = Some (ref, b) →
  ∃ front back,
    bs = front ++ b :: back ∧ length front = ref ∧
    id b = book_id ∧ book_id ∉ ids front.
Proof.
  intros (Hlook & Hid & Hfirst)%list_find_Some.
  exists (take ref bs), (drop (S ref) bs). split_and!.
  - by rewrite take_drop_middle.
  - apply length_take_le. apply lookup_lt_Some in Hlook. lia.
  - done.
  - unfold ids. intros (x & -> & (j & Hj & Hlt)%elem_of_take)%list_elem_of_fmap.
    by apply (Hfirst j x).
Qed.

(** X1. [find_book_by_id] changes nothing and returns the first record
    that has the id, with no record before it having it, or [None] exactly
    when no record has the id. *)
Theorem find_book_by_id_first (book_id : Z) (st : Library) :
  ∃ found,
    find_book_by_id book_id st = (Ok found, st) ∧
    match found with
    | Some (ref, b) =>
        books st !! ref = Some b ∧ id b = book_id ∧
        book_id ∉ ids (take ref (books st))
    | None => book_id ∉ ids (books st)
    end.
Proof.
  eexists. split; [reflexivity |].
  destruct (list_find _ _) as [[ref b]|] eqn:Hfind.
  - destruct (find_first_split _ _ _ _ Hfind) as (front & back & Hbs & Hlen & Hid & Hnot).
    rewrite Hbs, <- Hlen. split_and!; [| done |].
    + by rewrite list_lookup_middle.
    + by rewrite take_app_length.
  - by apply find_None_iff.
Qed.

(** ** Removing and changing a present record *)

(** X2. On a path that can be written, [remove_book] on a present id
    deletes the first record with that id and no other, keeps the order of
    the rest, writes the remaining catalog to the file, prints the removal
    line and returns [None]. *)
Theorem remove_book_present (book_id : Z) (st : Library) :
  writable st = true →
  book_id ∈ ids (books st) →
  ∃ front b back,
    books st = front ++ b :: back ∧ id b = book_id ∧ (book_id ∉ ids front) ∧
    remove_book book_id st =
      (Ok PyNone,
       mkLibrary (front ++ back) (Json (serialize (front ++ back))) true
                 (stdout st ++ [msg_removed book_id])).
Proof.
  intros Hw [[ref b] Hfind]%find_Some_present.
  destruct (find_first_split _ _ _ _ Hfind) as (front & back & Hbs & Hlen & Hid & Hnot).
  exists front, b, back. split_and!; [done.. |].
  run. rewrite Hfind. simpl. rewrite Hw, Hbs, <- Hlen, delete_middle. done.
Qed.

Lemma remove_book_present_witness :
  writable unordered_library = true ∧
  2 ∈ ids (books unordered_library) ∧
  ∃ front b back,
    books unordered_library = front ++ b :: back ∧ id b = 2 ∧ (2 ∉ ids front) ∧
    remove_book 2 unordered_library =
      (Ok PyNone,
       mkLibrary (front ++ back) (Json (serialize (front ++ back))) true
                 (stdout unordered_library ++ [msg_removed 2])).
Proof.
  assert (Hin : 2 ∈ ids (books unordered_library)).
  { apply (bool_decide_unpack _). reflexivity. }
  split_and!; [reflexivity | exact Hin |].
  exact (remove_book_present 2 unordered_library eq_refl Hin).
Defined.

(** X3. On a path that can be written, [change_status] on a present id
    with a valid status sets the status of the first record with that id,
    leaves its other attributes, every other record and the order as they
    were, writes the catalog to the file, prints the change line and
    returns [None]. *)
Theorem change_status_present (book_id : Z) (new_status : string) (st : Library) :
  writable st = true →
  book_id ∈ ids (books st) →
  new_status ∈ [AVAILABLE; CHECKED_OUT] →
  ∃ front b back,
    books st = front ++ b :: back ∧ id b = book_id ∧ (book_id ∉ ids front) ∧
    let bs' := front ++ mkBook (id b) (title b) (author b) (year b) new_status :: back in
    change_status book_id new_status st =
      (Ok PyNone,
       mkLibrary bs' (Json (serialize bs')) true
                 (stdout st ++ [msg_status_changed book_id new_status])).
Proof.
  intros Hw [[ref b] Hfind]%find_Some_present Hvalid.
  destruct (find_first_split _ _ _ _ Hfind) as (front & back & Hbs & Hlen & Hid & Hnot).
  exists front, b, back. split_and!; [done.. |].
  assert (Hs : valid_status new_status = true) by by apply bool_decide_eq_true.
  run. rewrite Hfind. simpl. rewrite Hs. simpl.
  rewrite Hw, Hbs, <- Hlen.
  replace (length front) with (length front + 0)%nat by lia.
  rewrite alter_app_r. done.
Qed.

Lemma change_status_present_witness :
  writable unordered_library = true ∧
  2 ∈ ids (books unordered_library) ∧
  CHECKED_OUT ∈ [AVAILABLE; CHECKED_OUT] ∧
  ∃ front b back,
    books unordered_library = front ++ b :: back ∧ id b = 2 ∧ (2 ∉ ids front) ∧
    let bs' := front ++ mkBook (id b) (title b) (author b) (year b) CHECKED_OUT :: back in
    change_status 2 CHECKED_OUT unordered_library =
      (Ok PyNone,
       mkLibrary bs' (Json (serialize bs')) true
                 (stdout unordered_library ++ [msg_status_changed 2 CHECKED_OUT])).
Proof.
  assert (Hin : 2 ∈ ids (books unordered_library)).
  { apply (bool_decide_unpack _). reflexivity. }
  assert (Hs : CHECKED_OUT ∈ [AVAILABLE; CHECKED_OUT]) by (right; left).
  split_and!; [reflexivity | exact Hin | exact Hs |].
  exact (change_status_present 2 CHECKED_OUT unordered_library eq_refl Hin Hs).
Defined.

(** X4. Where the file cannot be written, each mutating method raises
    [OSError] after it has changed the catalog in memory: the record is
    added, removed or updated there, while the file and the console stay as
    they were. *)
Theorem mutation_unwritable (st : Library) :
  writable st = false →
  (∀ t a y,
     add_book t a y st =
       (Raise OSError,
        mkLibrary (books st ++ [mkBook (next_id (books st)) t a y AVAILABLE])
                  (data_file st) false (stdout st))) ∧
  (∀ book_id, book_id ∈ ids (books st) →
     ∃ front b back,
       books st = front ++ b :: back ∧ id b = book_id ∧ (book_id ∉ ids front) ∧
       remove_book book_id st =
         (Raise OSError, mkLibrary (front ++ back) (data_file st) false (stdout st))) ∧
  (∀ book_id new_status,
     book_id ∈ ids (books st) → new_status ∈ [AVAILABLE; CHECKED_OUT] →
     ∃ front b back,
       books st = front ++ b :: back ∧ id b = book_id ∧ (book_id ∉ ids front) ∧
       change_status book_id new_status st =
         (Raise OSError,
          mkLibrary (front ++ set_status new_status b :: back)
                    (data_file st) false (stdout st))).
Proof.
  intros Hw. split_and!.
  - intros t a y. run. by rewrite Hw.
  - intros book_id [[ref b] Hfind]%find_Some_present.
    destruct (find_first_split _ _ _ _ Hfind) as (front & back & Hbs & Hlen & Hid & Hnot).
    exists front, b, back. split_and!; [done.. |].
    run. rewrite Hfind. simpl. rewrite Hw, Hbs, <- Hlen, delete_middle. done.
  - intros book_id new_status [[ref b] Hfind]%find_Some_present Hvalid.
    destruct (find_first_split _ _ _ _ Hfind) as (front & back & Hbs & Hlen & Hid & Hnot).
    exists front, b, back. split_and!; [done.. |].
    assert (Hs : valid_status new_status = true) by by apply bool_decide_eq_true.
    run. rewrite Hfind. simpl. rewrite Hs. simpl. rewrite Hw, Hbs, <- Hlen.
    replace (length front) with (length front + 0)%nat by lia.
    rewrite alter_app_r. done.
Qed.

Lemma mutation_unwritable_witness :
  writable readonly_library = false ∧
  add_book "Dune" "Herbert" 1965 readonly_library =
    (Raise OSError,
     mkLibrary [mkBook 1 "Emma" "Austen" 1815 AVAILABLE;
                mkBook 2 "Dune" "Herbert" 1965 AVAILABLE] NoFile false []).
Proof.
  split; [reflexivity |].
  exact (proj1 (mutation_unwritable readonly_library eq_refl) "Dune" "Herbert" 1965).
Defined.

(** ** How the methods compose *)

(** In an ascending catalog the id of a new record is above every id. *)
Lemma next_id_fresh (bs : list Book) :
  ascending bs → next_id bs ∉ ids bs.
Proof.
  intros Hasc (b & Hid & Hb)%list_elem_of_fmap. unfold next_id in Hid.
  destruct (last bs) as [l|] eqn:Hlast.
  - pose proof (ascending_last_greatest _ _ Hasc Hlast b Hb). lia.
  - apply last_None in Hlast as ->. by apply elem_of_nil in Hb.
Qed.

Lemma find_snoc_fresh (book_id : Z) (bs : list Book) (b : Book) :
  book_id ∉ ids bs → id b = book_id →
  list_find (λ b, id b = book_id) (bs ++ [b]) = Some (length bs, b).
Proof.
  intros Hnot Hid. apply list_find_Some. split_and!.
  - by rewrite list_lookup_middle.
  - done.
  - intros j x Hj Hlt Hx. apply Hnot. rewrite <- Hx.
    apply list_elem_of_fmap_2. rewrite lookup_app_l in Hj by done.
    by eapply list_elem_of_lookup_2.
Qed.

(** X5. In a catalog with ascending ids, the record [add_book] has just
    appended is the one [find_book_by_id] returns for the new id, whether or
    not saving succeeded. *)
Theorem add_then_find (t a : string) (y : Z) (st : Library)
    (r : result pyobj) (st' : Library) :
  ascending (books st) →
  add_book t a y st = (r, st') →
  find_book_by_id (next_id (books st)) st' =
    (Ok (Some (length (books st), mkBook (next_id (books st)) t a y AVAILABLE)), st').
Proof.
  intros Hasc Hrun%add_book_appends. run. rewrite Hrun.
  by rewrite (find_snoc_fresh _ _ _ (next_id_fresh _ Hasc)).
Qed.

Lemma add_then_find_witness :
  ascending (books python_library) ∧
  find_book_by_id 4 (add_book "Dune" "Herbert" 1965 python_library).2 =
    (Ok (Some (3%nat, mkBook 4 "Dune" "Herbert" 1965 AVAILABLE)),
     (add_book "Dune" "Herbert" 1965 python_library).2).
Proof.
  assert (Hasc : ascending (books python_library)).
  { apply (bool_decide_unpack _). reflexivity. }
  split; [exact Hasc |].
  exact (add_then_find "Dune" "Herbert" 1965 python_library
           (add_book "Dune" "Herbert" 1965 python_library).1 _ Hasc eq_refl).
Defined.

(** X6. In a catalog with ascending ids, removing the id that [add_book]
    has just assigned gives back the catalog as it was before the addition. *)
Theorem add_then_remove (t a : string) (y : Z) (st : Library)
    (r1 r2 : result pyobj) (st1 st2 : Library) :
  ascending (books st) →
  add_book t a y st = (r1, st1) →
  remove_book (next_id (books st)) st1 = (r2, st2) →
  books st2 = books st.
Proof.
  intros Hasc Hadd%add_book_appends. run. rewrite Hadd.
  rewrite (find_snoc_fresh _ _ _ (next_id_fresh _ Hasc)) by done. simpl.
  rewrite !Hadd, delete_middle, app_nil_r.
  destruct (writable st1); by intros [= <- <-].
Qed.

Lemma add_then_remove_witness :
  ascending (books python_library) ∧
  books (remove_book 4 (add_book "Dune" "Herbert" 1965 python_library).2).2 =
    books python_library.
Proof.
  assert (Hasc : ascending (books python_library)).
  { apply (bool_decide_unpack _). reflexivity. }
  split; [exact Hasc |].
  exact (add_then_remove "Dune" "Herbert" 1965 python_library _ _ _ _ Hasc
           eq_refl eq_refl).
Defined.

(** ** Decoding a record *)

(** X7. [from_dict] on a mapping raises [KeyError] for the first of the
    keys id, title, author, year, status that the mapping lacks, whatever
    the mapping holds besides. *)
Theorem from_dict_missing_key (members : list (string * json))
    (before : list string) (key : string) (after : list string) :
  record_attrs = before ++ key :: after →
  (∀ k, k ∈ before → is_Some (dict_get members k)) →
  dict_get members key = None →
  from_dict (JDict members) = Raise (KeyError key).
Proof.
  intros Hsplit Hbefore Hkey. unfold from_dict, subscript.
  assert (Hhas : ∀ k, k ∈ before → ∃ v, dict_get members k = Some v).
  { intros k Hk. by destruct (Hbefore k Hk) as [v ->]; eexists. }
  unfold record_attrs in Hsplit.
  destruct before as [|k1 before]; simplify_eq/=; [by rewrite Hkey |].
  destruct (Hhas "id") as [v1 ->]; [left |]. simpl.
  destruct before as [|k2 before]; simplify_eq/=; [by rewrite Hkey |].
  destruct (Hhas "title") as [v2 ->]; [right; left |]. simpl.
  destruct before as [|k3 before]; simplify_eq/=; [by rewrite Hkey |].
  destruct (Hhas "author") as [v3 ->]; [do 2 right; left |]. simpl.
  destruct before as [|k4 before]; simplify_eq/=; [by rewrite Hkey |].
  destruct (Hhas "year") as [v4 ->]; [do 3 right; left |]. simpl.
  destruct before as [|k5 before]; simplify_eq/=; [by rewrite Hkey |].
  by destruct before.
Qed.

Lemma from_dict_missing_key_witness :
  record_attrs = ["id"; "title"] ++ "author" :: ["year"; "status"] ∧
  from_dict (JDict [("title", JStr "Emma"); ("id", JInt 1); ("pages", JInt 474)]) =
    Raise (KeyError "author").
Proof.
  split; [reflexivity |].
  apply (from_dict_missing_key _ ["id"; "title"] "author" ["year"; "status"] eq_refl);
    [| reflexivity].
  intros k [-> | [-> | []%elem_of_nil]%elem_of_cons]%elem_of_cons; by eexists.
Defined.

Lemma from_dict_not_mapping (data : json) :
  (∀ members, data ≠ JDict members) → from_dict data = Raise TypeError.
Proof. intros Hnot. destruct data; try done. by destruct (Hnot members). Qed.

(** X8. A record that [from_dict] decodes holds exactly what the mapping
    has under the five keys: encoding it again with [to_dict] gives the same
    value as the mapping under each of them. Other keys of the mapping, and
    the order of its keys, do not matter. *)
Theorem from_dict_inverse (data : json) (b : Book) (key : string) :
  from_dict data = Ok b →
  key ∈ record_attrs →
  subscript data key = subscript (to_dict b) key.
Proof.
  unfold from_dict. intros Hdec Hkey.
  destruct (subscript data "id") as [v1| |] eqn:H1; try done.
  destruct (subscript data "title") as [v2| |] eqn:H2; try done.
  destruct (subscript data "author") as [v3| |] eqn:H3; try done.
  destruct (subscript data "year") as [v4| |] eqn:H4; try done.
  destruct (subscript data "status") as [v5| |] eqn:H5; try done.
  simpl in Hdec.
  destruct v1; try done. destruct v2; try done. destruct v3; try done.
  destruct v4; try done. destruct v5; try done.
  simpl in Hdec. injection Hdec as <-.
  unfold record_attrs in Hkey. rewrite !elem_of_cons, elem_of_nil in Hkey.
  destruct Hkey as [-> | [-> | [-> | [-> | [-> | []]]]]]; done.
Qed.

Lemma from_dict_inverse_witness :
  from_dict (JDict [("year", JInt 1815); ("status", JStr CHECKED_OUT);
                    ("shelf", JStr "B2"); ("id", JInt 7);
                    ("author", JStr "Austen"); ("title", JStr "Emma")]) =
    Ok (mkBook 7 "Emma" "Austen" 1815 CHECKED_OUT) ∧
  "status" ∈ record_attrs ∧
  subscript (JDict [("year", JInt 1815); ("status", JStr CHECKED_OUT);
                    ("shelf", JStr "B2"); ("id", JInt 7);
                    ("author", JStr "Austen"); ("title", JStr "Emma")]) "status" =
    subscript (to_dict (mkBook 7 "Emma" "Austen" 1815 CHECKED_OUT)) "status".
Proof.
  assert (Hkey : "status" ∈ record_attrs) by (apply (bool_decide_unpack _); reflexivity).
  split_and!; [reflexivity | exact Hkey |].
  exact (from_dict_inverse
           (JDict [("year", JInt 1815); ("status", JStr CHECKED_OUT);
                   ("shelf", JStr "B2"); ("id", JInt 7);
                   ("author", JStr "Austen"); ("title", JStr "Emma")])
           (mkBook 7 "Emma" "Austen" 1815 CHECKED_OUT) "status" eq_refl Hkey).
Defined.

(** ** Loading *)

(** X9. [load_books] never writes the file and never prints; when it
    raises, the catalog in memory is left as it was, and when the file is
    absent or is not JSON the catalog in memory is emptied. *)
Theorem load_books_effect (st : Library) (r : result pyobj) (st' : Library) :
  load_books st = (r, st') →
  data_file st' = data_file st ∧ writable st' = writable st ∧
  stdout st' = stdout st ∧
  (r ≠ Ok PyNone → books st' = books st) ∧
  (data_file st = NoFile ∨ data_file st = NotJson → r = Ok PyNone ∧ books st' = []).
Proof.
  run. destruct (data_file st) as [| | |doc] eqn:Hfile; simpl;
    [| | | destruct (py_iter doc) as [items|e|]; simpl;
           [destruct (from_dicts items) as [bs|e|]; simpl; [| destruct e |]
           | destruct e |]];
    intros [= <- <-]; simpl; split_and!; try done; intros [|]; done.
Qed.

Lemma load_books_effect_witness :
  load_books (mkLibrary (books python_library) NotJson true []) =
    (Ok PyNone, mkLibrary [] NotJson true []) ∧
  data_file (mkLibrary [] NotJson true []) = NotJson.
Proof.
  split; [reflexivity |].
  exact (proj1 (load_books_effect (mkLibrary (books python_library) NotJson true [])
                  (Ok PyNone) (mkLibrary [] NotJson true []) eq_refl)).
Defined.

(** ** Displaying and searching *)

(** X10. [display_books] never fails and changes neither the catalog nor
    the file. Without an argument it prints the line of every record in
    catalog order, or the empty-library line when there is no record; given
    a list that is not empty it prints the lines of that list; given the
    empty list it behaves as without an argument and shows the whole
    catalog. *)
Theorem display_books_shows (st : Library) :
  display_books None st =
    (Ok PyNone,
     say st (match books st with [] => [msg_empty] | bs => book_line <$> bs end)) ∧
  (∀ b rest,
     display_books (Some (b :: rest)) st =
       (Ok PyNone, say st (book_line <$> b :: rest))) ∧
  display_books (Some []) st = display_books None st.
Proof.
  split_and!.
  - unfold display_books, get_books, mbind, M_bind. cbv iota beta.
    destruct (books st) as [|b rest] eqn:Hbooks; [done |].
    by rewrite print_all_say.
  - intros b rest. unfold display_books, get_books, mbind, M_bind. cbv iota beta.
    by rewrite print_all_say.
  - done.
Qed.

Section MoreSearch.
Variable str_lower : string → string.
Variable implicit_attr : string → bool.
Variable obj_repr : string → Book → string.

Lemma matches_record_attr (keyword field : string) (b : Book) :
  field ∈ record_attrs →
  matches str_lower implicit_attr obj_repr keyword field b =
    Ok (str_contains (str_lower keyword) (str_lower (attr_text field b))).
Proof.
  unfold record_attrs. rewrite !elem_of_cons, elem_of_nil.
  by intros [-> | [-> | [-> | [-> | [-> | []]]]]].
Qed.

(** The comprehension either yields its hits or stops on [AttributeError]. *)
Lemma search_results_outcome (keyword field : string) (bs : list Book) :
  (∃ hits, search_results str_lower implicit_attr obj_repr keyword field bs = Ok hits) ∨
  search_results str_lower implicit_attr obj_repr keyword field bs = Raise AttributeError.
Proof.
  induction bs as [|b bs IH]; [left; by eexists |].
  cbn [search_results]. unfold matches, getattr.
  repeat case_decide; simpl; try destruct (implicit_attr field); simpl;
    try (by right);
    (destruct IH as [[hits ->] | ->]; simpl; [left; by eexists | by right]).
Qed.

Lemma search_books_outcome (keyword field : string) (st : Library) :
  (∃ hits,
     search_results str_lower implicit_attr obj_repr keyword field (books st) = Ok hits ∧
     search_books str_lower implicit_attr obj_repr keyword field st =
       (Ok PyNone, say st (report keyword hits))) ∨
  search_books str_lower implicit_attr obj_repr keyword field st =
    (Raise AttributeError, st).
Proof.
  unfold search_books, get_books, lift, mbind, M_bind.
  destruct (search_results_outcome keyword field (books st)) as [[hits Hres] | Hres];
    rewrite Hres; cbv iota beta; [left | by right].
  exists hits. split; [done |].
  destruct hits as [|hit hits]; [done |].
  unfold display_books, get_books, mbind, M_bind. cbv iota beta.
  by rewrite print_all_say.
Qed.

(** X11. Whatever the keyword and the field, [search_books] changes neither
    the catalog nor the file: it returns [None] after printing, or it raises
    [AttributeError] having printed nothing. No other outcome exists. *)
Theorem search_books_only_prints (keyword field : string) (st : Library) :
  (∃ lines,
     lines ≠ [] ∧
     search_books str_lower implicit_attr obj_repr keyword field st =
       (Ok PyNone, say st lines)) ∨
  search_books str_lower implicit_attr obj_repr keyword field st =
    (Raise AttributeError, st).
Proof.
  destruct (search_books_outcome keyword field st) as [(hits & _ & ->) | ->];
    [left | by right].
  exists (report keyword hits). split; [| done]. by destruct hits.
Qed.

(** X12. On an empty catalog [search_books] prints the no-results line and
    returns [None] for every field name, also one that no record would
    have: no attribute is ever looked up. *)
Theorem search_books_empty_catalog (keyword field : string) (st : Library) :
  books st = [] →
  search_books str_lower implicit_attr obj_repr keyword field st =
    (Ok PyNone, say st [msg_no_results keyword]).
Proof.
  intros Hempty. unfold search_books, get_books, lift, mbind, M_bind.
  by rewrite Hempty.
Qed.

Lemma search_results_record_attr (keyword field : string) (bs : list Book) :
  field ∈ record_attrs →
  ∃ hits,
    selects (λ b, substring (str_lower keyword) (str_lower (attr_text field b)))
            bs hits ∧
    search_results str_lower implicit_attr obj_repr keyword field bs = Ok hits.
Proof.
  intros Hfield. induction bs as [|b bs (hits & Hsel & IH)].
  - exists []. split; [constructor | done].
  - cbn [search_results]. rewrite (matches_record_attr _ _ _ Hfield), IH. simpl.
    destruct (str_contains _ _) eqn:Hhit.
    + exists (b :: hits). split; [| done].
      apply selects_keep; [| done]. by apply str_contains_substring.
    + exists hits. split; [| done].
      apply selects_skip; [| done].
      rewrite <- str_contains_substring. congruence.
Qed.

(** X13. [search_books] accepts each of the five attributes of a record as
    field, id and status included: it prints exactly the records whose
    attribute, as text, contains the keyword once both are lower-cased, in
    catalog order, or the no-results line. *)
Theorem search_books_record_attr (keyword field : string) (st : Library) :
  field ∈ record_attrs →
  ∃ hits,
    selects (λ b, substring (str_lower keyword) (str_lower (attr_text field b)))
            (books st) hits ∧
    search_books str_lower implicit_attr obj_repr keyword field st =
      (Ok PyNone, say st (report keyword hits)).
Proof.
  intros Hfield.
  destruct (search_results_record_attr keyword field (books st) Hfield)
    as (hits & Hsel & Hres).
  exists hits. split; [done |].
  unfold search_books, get_books, lift, mbind, M_bind. rewrite Hres. cbv iota beta.
  destruct hits as [|hit hits]; [done |].
  unfold display_books, get_books, mbind, M_bind. cbv iota beta.
  by rewrite print_all_say.
Qed.
End MoreSearch.

Lemma search_books_empty_catalog_witness :
  books empty_library = [] ∧
  search_books lower_string ascii_implicit ascii_repr "Emma" "isbn" empty_library =
    (Ok PyNone, say empty_library [msg_no_results "Emma"]).
Proof.
  split; [reflexivity |].
  exact (search_books_empty_catalog lower_string ascii_implicit ascii_repr
           "Emma" "isbn" empty_library eq_refl).
Defined.

Lemma search_books_record_attr_witness :
  "status" ∈ record_attrs ∧
  ∃ hits,
    selects (λ b, substring (lower_string CHECKED_OUT)
                            (lower_string (attr_text "status" b)))
            (books duplicate_library) hits ∧
    search_books lower_string ascii_implicit ascii_repr CHECKED_OUT "status"
                 duplicate_library =
      (Ok PyNone, say duplicate_library (report CHECKED_OUT hits)).
Proof.
  assert (Hfield : "status" ∈ record_attrs) by (apply (bool_decide_unpack _); reflexivity).
  split; [exact Hfield |].
  exact (search_books_record_attr lower_string ascii_implicit ascii_repr
           CHECKED_OUT "status" duplicate_library Hfield).
Defined.

(** * Properties of the menu loop *)

(** ** What the methods can raise *)

Lemma display_books_say (arg : option (list Book)) (st : Library) :
  ∃ lines, display_books arg st = (Ok PyNone, say st lines).
Proof.
  unfold display_books, get_books, mbind, M_bind. cbv iota beta.
  destruct arg as [[|b rest]|]; destruct (books st) as [|b' rest'] eqn:Hbooks;
    rewrite ?print_all_say; by eexists.
Qed.

Lemma lib_spec_say (I : Library → Prop) (E : exn → Prop) {A} (m : M A) (a : A) :
  (∀ st lines, I st → I (say st lines)) →
  (∀ st, ∃ lines, m st = (Ok a, say st lines)) →
  lib_spec I E m.
Proof.
  intros Hsay Hm st r st' HI Hrun. destruct (Hm st) as [lines Heq].
  rewrite Heq in Hrun. injection Hrun as <- <-. split; [by apply Hsay | done].
Qed.

(** The outcomes of the three mutating methods: [None], or [OSError] on a
    path that cannot be written. *)
Lemma add_book_outcome (t a : string) (y : Z) (st : Library)
    (r : result pyobj) (st' : Library) :
  add_book t a y st = (r, st') →
  writable st' = writable st ∧
  (r = Ok PyNone ∧ writable st = true ∨ r = Raise OSError ∧ writable st = false).
Proof. run. destruct (writable st) eqn:Hw; intros [= <- <-]; simpl; auto. Qed.

Lemma remove_book_outcome (book_id : Z) (st : Library)
    (r : result pyobj) (st' : Library) :
  remove_book book_id st = (r, st') →
  writable st' = writable st ∧
  (r = Ok PyNone ∨ r = Raise OSError ∧ writable st = false).
Proof.
  run. destruct (list_find _ _) as [[ref b]|]; simpl;
    [destruct (writable st) eqn:Hw |]; intros [= <- <-]; simpl; auto.
Qed.

Lemma change_status_outcome (book_id : Z) (new_status : string) (st : Library)
    (r : result pyobj) (st' : Library) :
  change_status book_id new_status st = (r, st') →
  writable st' = writable st ∧
  (r = Ok PyNone ∨ r = Raise OSError ∧ writable st = false).
Proof.
  run. destruct (list_find _ _) as [[ref b]|]; simpl;
    [destruct (valid_status new_status); simpl;
       [destruct (writable st) eqn:Hw |] |];
    intros [= <- <-]; simpl; auto.
Qed.

(** ** Steps of the loop *)

Section ShellSteps.
Variable I : Library → Prop.
Variable E : exn → Prop.
Hypothesis HI : lib_inv I E.

Lemma sh_spec_ret {A} (n : nat) (a : A) : sh_spec I E n (mret a).
Proof. intros c r c' Hc Hn [= <- <-]. done. Qed.

Lemma sh_spec_fail {A} (n : nat) (e : shell_exn) :
  (∀ e', e = LibraryError e' → E e') → sh_spec I E n (@fail A e).
Proof.
  intros He c r c' Hc Hn [= <- <-]. split_and!; [done.. |].
  destruct e; auto.
Qed.

Lemma sh_spec_bind {A B} (n : nat) (m : Sh A) (k : A → Sh B) :
  sh_spec I E n m → (∀ a, sh_spec I E n (k a)) → sh_spec I E n (m ≫= k).
Proof.
  intros Hm Hk c r c' Hc Hn. unfold mbind, Sh_bind.
  destruct (m c) as [[a|e|] c1] eqn:Hrun;
    destruct (Hm _ _ _ Hc Hn Hrun) as (Hc1 & Hn1 & Hr).
  - intros Hrun'. by apply (Hk a c1).
  - by intros [= <- <-].
  - done.
Qed.

Lemma sh_spec_call {A} (n : nat) (m : M A) :
  lib_spec I E m → sh_spec I E n (call m).
Proof.
  intros Hm c r c' Hc Hn. unfold call.
  destruct (m (library c)) as [[a|e|] st'] eqn:Hrun;
    destruct (Hm _ _ _ Hc Hrun) as [Hst' Hr]; by intros [= <- <-].
Qed.

Lemma lib_spec_print (line : string) : lib_spec I E (print line).
Proof.
  apply (lib_spec_say I E _ ()); [apply HI |]. intros st. by exists [line].
Qed.

Lemma lib_spec_print_all (lines : list string) : lib_spec I E (print_all lines).
Proof.
  apply (lib_spec_say I E _ ()); [apply HI |]. intros st. exists lines.
  apply print_all_say.
Qed.

Lemma sh_spec_read_line (n : nat) : sh_spec I E n read_line.
Proof.
  intros c r c' Hc Hn. unfold read_line.
  destruct (stdin c) as [|line rest] eqn:Hin; intros [= <- <-]; simpl.
  - by rewrite Hin.
  - simpl in Hn. split_and!; [done | lia | done].
Qed.

Lemma sh_spec_input (n : nat) (prompt : string) : sh_spec I E n (input prompt).
Proof.
  apply sh_spec_bind; [apply sh_spec_call, lib_spec_print |].
  intros _. apply sh_spec_read_line.
Qed.

Variable str_lower : string → string.
Variable implicit_attr : string → bool.
Variable obj_repr : string → Book → string.
Variable str_strip : string → string.
Variable str_isdigit : string → bool.
Variable py_int : string → option Z.

Lemma lib_spec_search (keyword field : string) :
  lib_spec I E (search_books str_lower implicit_attr obj_repr keyword field).
Proof.
  intros st r st' Hst.
  destruct (search_books_outcome str_lower implicit_attr obj_repr keyword field st)
    as [(hits & _ & ->) | ->]; intros [= <- <-].
  - split; [by apply HI | done].
  - split; [done | apply HI].
Qed.

Lemma lib_spec_display (arg : option (list Book)) : lib_spec I E (display_books arg).
Proof.
  apply (lib_spec_say I E _ PyNone); [apply HI |]. intros st. apply display_books_say.
Qed.

Lemma dispatch_spec (n : nat) (choice : string) :
  sh_spec I E n
    (dispatch str_lower implicit_attr obj_repr str_strip str_isdigit py_int choice).
Proof.
  unfold dispatch.
  repeat first
    [ apply sh_spec_ret
    | apply sh_spec_input
    | apply sh_spec_fail; discriminate
    | apply sh_spec_call;
        first [ apply lib_spec_print | apply lib_spec_search | apply lib_spec_display
              | apply HI ]
    | apply sh_spec_bind; [| intros ?]
    | case_decide
    | match goal with |- context [match ?x with _ => _ end] => destruct x end ].
Qed.

Lemma iteration_spec (n : nat) :
  sh_spec I E n
    (iteration str_lower implicit_attr obj_repr str_strip str_isdigit py_int).
Proof.
  unfold iteration.
  apply sh_spec_bind; [apply sh_spec_call, lib_spec_print_all | intros _].
  apply sh_spec_bind; [apply sh_spec_input | intros choice].
  apply dispatch_spec.
Qed.
End ShellSteps.

(** ** What the constructor leaves *)

(** The outcome of the constructor and the catalog it leaves depend on the
    file alone. *)
Lemma Library_init_frame (st : Library) :
  Library_init st =
    ((Library_init (mkLibrary [] (data_file st) true [])).1,
     mkLibrary (books (Library_init (mkLibrary [] (data_file st) true [])).2)
               (data_file st) (writable st) (stdout st)).
Proof.
  run. destruct (data_file st) as [| | |doc]; simpl; try done.
  destruct (py_iter doc) as [items|e|]; simpl; [| by destruct e | done].
  destruct (from_dicts items) as [bs|e|]; simpl; [done | by destruct e | done].
Qed.




(** ** The three invariants of a session *)

(** Nothing about the catalog: only what can be raised. *)
Lemma lib_inv_outcomes (w : bool) :
  lib_inv (λ st, writable st = w)
          (λ e, e = AttributeError ∨ e = OSError ∧ w = false).
Proof.
  split.
  - done.
  - by left.
  - intros t a y st r st' Hw Hrun.
    destruct (add_book_outcome _ _ _ _ _ _ Hrun) as [Hw' [[-> _] | [-> Hno]]];
      (split; [congruence |]); [done | right; split; congruence].
  - intros i st r st' Hw Hrun.
    destruct (remove_book_outcome _ _ _ _ Hrun) as [Hw' [-> | [-> Hno]]];
      (split; [congruence |]); [done | right; split; congruence].
  - intros i s st r st' Hw Hrun.
    destruct (change_status_outcome _ _ _ _ _ Hrun) as [Hw' [-> | [-> Hno]]];
      (split; [congruence |]); [done | right; split; congruence].
Qed.

Lemma well_numbered_snoc (st : Library) (b : Book) :
  well_numbered st → id b = next_id (books st) →
  ascending (books st ++ [b]) ∧ Forall (λ b, 1 ≤ id b) (books st ++ [b]).
Proof.
  intros [Hasc Hpos] Hid. split; [by apply ascending_snoc |].
  apply Forall_app. split; [done |]. apply Forall_singleton.
  rewrite Hid. unfold next_id. destruct (last (books st)) as [l|] eqn:Hlast; [| lia].
  apply last_Some_elem_of in Hlast. eapply Forall_forall in Hpos; [| done]. lia.
Qed.

Lemma lib_inv_well_numbered :
  lib_inv well_numbered (λ e, e = AttributeError ∨ e = OSError).
Proof.
  split.
  - done.
  - by left.
  - intros t a y st r st' Hnum Hrun. split.
    + pose proof (add_book_appends _ _ _ _ _ _ Hrun) as Hbooks.
      unfold well_numbered. rewrite Hbooks. by apply well_numbered_snoc.
    + destruct (add_book_outcome _ _ _ _ _ _ Hrun) as [_ [[-> _] | [-> _]]]; auto.
  - intros i st r st' [Hasc Hpos] Hrun. split.
    + revert Hrun. unfold well_numbered. run.
      destruct (list_find _ _) as [[ref b]|]; simpl;
        [destruct (writable st) |]; intros [= <- <-]; simpl;
        (split; [by try apply ascending_delete |]); try done;
        apply Forall_forall; intros x Hx%list_elem_of_delete_inv;
        by eapply Forall_forall in Hpos.
    + destruct (remove_book_outcome _ _ _ _ Hrun) as [_ [-> | [-> _]]]; auto.
  - intros i s st r st' [Hasc Hpos] Hrun. split.
    + assert (Hids : ids (books st') = ids (books st)).
      { revert Hrun. run. destruct (list_find _ _) as [[ref b]|]; simpl;
          [destruct (valid_status s); simpl; [destruct (writable st) |] |];
          intros [= <- <-]; simpl; by rewrite ?ids_set_status. }
      unfold well_numbered, ascending. rewrite Hids. split; [done |].
      apply Forall_forall. intros x Hx.
      assert (id x ∈ ids (books st)) as (x' & -> & Hx')%list_elem_of_fmap.
      { rewrite <- Hids. by apply list_elem_of_fmap_2. }
      by eapply Forall_forall in Hpos.
    + destruct (change_status_outcome _ _ _ _ _ Hrun) as [_ [-> | [-> _]]]; auto.
Qed.


(** X23. Each mutating method keeps the numbering of the catalog, whether
    it returns or raises: if ids ascend from 1 or above before [add_book],
    [remove_book] or [change_status], they do so afterwards, and are
    therefore pairwise distinct. *)
Theorem mutations_keep_numbering (st : Library) (r : result pyobj) (st' : Library) :
  well_numbered st →
  (∃ t a y, add_book t a y st = (r, st')) ∨
  (∃ book_id, remove_book book_id st = (r, st')) ∨
  (∃ book_id new_status, change_status book_id new_status st = (r, st')) →
  well_numbered st' ∧ NoDup (ids (books st')).
Proof.
  intros Hnum Hrun.
  assert (Hnum' : well_numbered st').
  { destruct Hrun as [(t & a & y & Hrun) | [(i & Hrun) | (i & s & Hrun)]].
    - by apply (inv_add _ _ lib_inv_well_numbered t a y st r st').
    - by apply (inv_remove _ _ lib_inv_well_numbered i st r st').
    - by apply (inv_change _ _ lib_inv_well_numbered i s st r st'). }
  split; [done |]. apply ascending_NoDup, Hnum'.
Qed.

Lemma mutations_keep_numbering_witness :
  well_numbered python_library ∧
  well_numbered (remove_book 2 python_library).2 ∧
  NoDup (ids (books (remove_book 2 python_library).2)).
Proof.
  assert (Hnum : well_numbered python_library).
  { split; apply (bool_decide_unpack _); reflexivity. }
  split; [exact Hnum |].
  apply (mutations_keep_numbering python_library (remove_book 2 python_library).1 _ Hnum).
  right. left. by exists 2.
Defined.

(** ** The loop *)

Section ShellLoop.
Variable str_lower : string → string.
Variable implicit_attr : string → bool.
Variable obj_repr : string → Book → string.
Variable str_strip : string → string.
Variable str_isdigit : string → bool.
Variable py_int : string → option Z.

(** A round prints the menu and the prompt, then stops on [EOFError] or
    goes on with the choice typed. *)
Lemma iteration_unfold (c : Console) :
  iteration str_lower implicit_attr obj_repr str_strip str_isdigit py_int c =
    let st := say (library c) (menu_lines ++ [prompt_choice]) in
    match stdin c with
    | [] => (Failed EOFError, mkConsole st [])
    | choice :: rest =>
        dispatch str_lower implicit_attr obj_repr str_strip str_isdigit py_int
                 choice (mkConsole st rest)
    end.
Proof.
  unfold iteration, input, read_line, call, mbind, Sh_bind.
  rewrite print_all_say. simpl.
  destruct (stdin c) as [|choice rest] eqn:Hin; simpl;
    unfold say; simpl; by rewrite <- app_assoc.
Qed.

(** A round that does not stop has taken at least one line. *)
Lemma iteration_consumes (c : Console) (x : control) (c' : Console) :
  iteration str_lower implicit_attr obj_repr str_strip str_isdigit py_int c =
    (Done x, c') →
  (length (stdin c') < length (stdin c))%nat.
Proof.
  rewrite iteration_unfold. cbv zeta.
  destruct (stdin c) as [|choice rest]; [done |]. intros Hrun.
  eapply (dispatch_spec _ _ (lib_inv_outcomes (writable (library c)))
            str_lower implicit_attr obj_repr str_strip str_isdigit py_int
            (length rest)) in Hrun as (_ & Hlen & _); [| done | done].
  simpl in *. lia.
Qed.

Lemma loop_terminates (fuel : nat) (c : Console) :
  (length (stdin c) < fuel)%nat →
  is_Some (loop str_lower implicit_attr obj_repr str_strip str_isdigit py_int fuel c).
Proof.
  revert c. induction fuel as [|fuel IH]; intros c Hlen; [lia |].
  cbn [loop].
  destruct (iteration _ _ _ _ _ _ c) as [[[|]|e|] c'] eqn:Hrun; try done.
  apply IH. apply iteration_consumes in Hrun. lia.
Qed.

Lemma loop_fuel (fuel1 fuel2 : nat) (c : Console) :
  (length (stdin c) < fuel1)%nat → (length (stdin c) < fuel2)%nat →
  loop str_lower implicit_attr obj_repr str_strip str_isdigit py_int fuel1 c =
  loop str_lower implicit_attr obj_repr str_strip str_isdigit py_int fuel2 c.
Proof.
  revert fuel2 c. induction fuel1 as [|fuel1 IH]; intros [|fuel2] c H1 H2; try lia.
  cbn [loop].
  destruct (iteration _ _ _ _ _ _ c) as [[[|]|e|] c'] eqn:Hrun; try done.
  apply iteration_consumes in Hrun. apply IH; lia.
Qed.

(** X14. [main] always ends: on every input, finite as it is, the loop is
    left by the choice 6 or by an exception, the end of the input raising
    [EOFError]. One round more than there are lines typed is enough, and
    further rounds change nothing. *)
Theorem main_terminates (c : Console) (extra : nat) :
  is_Some (main str_lower implicit_attr obj_repr str_strip str_isdigit py_int c) ∧
  loop str_lower implicit_attr obj_repr str_strip str_isdigit py_int
       (S (length (stdin c)) + extra) c =
  loop str_lower implicit_attr obj_repr str_strip str_isdigit py_int
       (S (length (stdin c))) c.
Proof.
  split; [| apply loop_fuel; lia].
  unfold main. destruct (call Library_init c) as [[a|e|] c1]; try done.
  apply loop_terminates. lia.
Qed.

Lemma quits_bind {A} (m : Sh A) (k : A → Sh control) :
  (∀ a, quits_politely (k a)) → quits_politely (m ≫= k).
Proof.
  intros Hk c c'. unfold mbind, Sh_bind.
  destruct (m c) as [[a|e|] c1]; [apply Hk | done | done].
Qed.

Lemma quits_again : quits_politely (mret Again).
Proof. by intros c c'. Qed.

Lemma quits_goodbye : quits_politely (_ ← call (print msg_goodbye); mret Quit).
Proof. intros c c' [= <-]. simpl. apply last_snoc. Qed.

Lemma dispatch_quits (choice : string) :
  quits_politely
    (dispatch str_lower implicit_attr obj_repr str_strip str_isdigit py_int choice).
Proof.
  unfold dispatch.
  repeat first
    [ apply quits_again
    | apply quits_goodbye
    | apply quits_bind; intros ?
    | case_decide
    | match goal with |- context [match ?x with _ => _ end] => destruct x end ].
Qed.

Lemma iteration_quits :
  quits_politely
    (iteration str_lower implicit_attr obj_repr str_strip str_isdigit py_int).
Proof.
  unfold iteration. apply quits_bind. intros _. apply quits_bind. intros choice.
  apply dispatch_quits.
Qed.

(** What a session keeps and how it can end, for an invariant [I] of the
    library and the exceptions [E] that go with it. *)
Lemma loop_spec (I : Library → Prop) (E : exn → Prop) (fuel : nat) (c : Console)
    (r : outcome unit) (c' : Console) :
  lib_inv I E →
  I (library c) →
  loop str_lower implicit_attr obj_repr str_strip str_isdigit py_int fuel c =
    Some (r, c') →
  I (library c') ∧
  match r with
  | Done _ => last (stdout (library c')) = Some msg_goodbye
  | Failed (LibraryError e) => E e
  | Failed _ => True
  | Lost => False
  end.
Proof.
  intros HI. revert c. induction fuel as [|fuel IH]; intros c Hc; [done |].
  cbn [loop].
  destruct (iteration _ _ _ _ _ _ c) as [[x|e|] c1] eqn:Hrun;
    destruct (iteration_spec I E HI str_lower implicit_attr obj_repr str_strip
                str_isdigit py_int (length (stdin c)) c _ _ Hc (le_n _) Hrun)
      as (Hc1 & _ & Hr); [| | done].
  - destruct x; [by apply IH |]. intros [= <- <-]. split; [done |].
    by apply (iteration_quits c).
  - intros [= <- <-]. done.
Qed.

Lemma main_unfold (c : Console) (st0 : Library) :
  Library_init (library c) = (Ok PyNone, st0) →
  main str_lower implicit_attr obj_repr str_strip str_isdigit py_int c =
    loop str_lower implicit_attr obj_repr str_strip str_isdigit py_int
         (S (length (stdin c))) (mkConsole st0 (stdin c)).
Proof. intros Hinit. unfold main, call. by rewrite Hinit. Qed.
End ShellLoop.

(** ** Whole sessions *)

Lemma sh_bind_input {A} (prompt : string) (k : string → Sh A) (st : Library)
    (line : string) (rest : list string) :
  (input prompt ≫= k) (mkConsole st (line :: rest)) =
    k line (mkConsole (say st [prompt]) rest).
Proof. done. Qed.

Lemma sh_bind_ret {A B} (a : A) (k : A → Sh B) (c : Console) :
  (mret a ≫= k) c = k a c.
Proof. done. Qed.

Section ShellSession.
Variable str_lower : string → string.
Variable implicit_attr : string → bool.
Variable obj_repr : string → Book → string.
Variable str_strip : string → string.
Variable str_isdigit : string → bool.
Variable py_int : string → option Z.

(** X15. How [main] can end when the constructor has loaded the catalog
    (no file, no JSON, or records whose id and year are integers and whose
    title, author and status are strings): by returning after the goodbye
    line, by [EOFError] or [ValueError], by [AttributeError] (from a
    search), or by [OSError] when the file cannot be written. No other
    exception of the library ends such a session. *)
Theorem main_endings (c : Console) (st0 : Library) (r : outcome unit) (c' : Console) :
  Library_init (library c) = (Ok PyNone, st0) →
  main str_lower implicit_attr obj_repr str_strip str_isdigit py_int c = Some (r, c') →
  match r with
  | Done _ => last (stdout (library c')) = Some msg_goodbye
  | Failed (LibraryError e) =>
      e = AttributeError ∨ e = OSError ∧ writable (library c) = false
  | Failed _ => True
  | Lost => False
  end.
Proof.
  intros Hinit. rewrite (main_unfold _ _ _ _ _ _ _ _ Hinit). intros Hloop.
  assert (Hw : writable st0 = writable (library c)).
  { rewrite Library_init_frame in Hinit. by injection Hinit as _ <-. }
  eapply loop_spec in Hloop as [_ Hr];
    [| apply (lib_inv_outcomes (writable (library c))) | exact Hw].
  destruct r as [[]|[e| |]|]; try done.
Qed.

(** X16. If the catalog the constructor loads has ascending ids from 1
    upwards (the empty catalog has), then however [main] ends, the catalog
    still has: ids are pairwise distinct, positive, and grow along the
    catalog. *)
Theorem main_keeps_numbering (c : Console) (st0 : Library)
    (r : outcome unit) (c' : Console) :
  Library_init (library c) = (Ok PyNone, st0) →
  well_numbered st0 →
  main str_lower implicit_attr obj_repr str_strip str_isdigit py_int c = Some (r, c') →
  well_numbered (library c') ∧ NoDup (ids (books (library c'))).
Proof.
  intros Hinit Hnum. rewrite (main_unfold _ _ _ _ _ _ _ _ Hinit). intros Hloop.
  eapply loop_spec in Hloop as [Hnum' _];
    [| apply lib_inv_well_numbered | exact Hnum].
  split; [done |]. apply ascending_NoDup, Hnum'.
Qed.


(** X18. A text that [int] rejects, typed as the id to remove or to
    change, never reaches the library: the round prints the bad-id line and
    goes on with the next line, the catalog and the file being as before. *)
Theorem iteration_rejects_bad_id (c : Console) (choice id_text : string)
    (rest : list string) :
  stdin c = choice :: id_text :: rest →
  choice = "2" ∨ choice = "5" →
  py_int id_text = None →
  ∃ prompt,
    iteration str_lower implicit_attr obj_repr str_strip str_isdigit py_int c =
      (Done Again,
       mkConsole (say (library c)
                      (menu_lines ++ [prompt_choice; prompt; msg_bad_id]))
                 rest).
Proof.
  intros Hin Hchoice Hint. rewrite iteration_unfold, Hin. cbv zeta.
  destruct Hchoice as [-> | ->]; unfold dispatch; repeat case_decide; try done;
    unfold input, call, read_line, mbind, Sh_bind; simpl; rewrite Hint; simpl;
    eexists; unfold say; simpl; by rewrite <- !app_assoc.
Qed.

(** X19. An empty title never reaches the library: the round prints that
    the title cannot be empty and goes on, without asking for the author
    and the year. *)
Theorem iteration_rejects_empty_title (c : Console) (rest : list string) :
  stdin c = "1" :: "" :: rest →
  iteration str_lower implicit_attr obj_repr str_strip str_isdigit py_int c =
    (Done Again,
     mkConsole (say (library c)
                    (menu_lines ++ [prompt_choice; prompt_title; msg_empty_title]))
               rest).
Proof.
  intros Hin. rewrite iteration_unfold, Hin. cbv zeta.
  unfold dispatch; repeat case_decide; try done.
  unfold input, call, read_line, mbind, Sh_bind; simpl.
  unfold say; simpl; by rewrite <- !app_assoc.
Qed.

(** X20. With a title that is not empty, the round calls [add_book] with
    the title and the author as typed and, as year, the number [int] reads
    when [isdigit] accepts the text, and 0 when it does not. *)
Theorem iteration_adds (c : Console) (title author year_text : string)
    (rest : list string) (year : Z) :
  stdin c = "1" :: title :: author :: year_text :: rest →
  title ≠ "" →
  typed_year str_isdigit py_int year_text = Some year →
  let st := say (library c)
                (menu_lines ++ [prompt_choice; prompt_title; prompt_author; prompt_year]) in
  iteration str_lower implicit_attr obj_repr str_strip str_isdigit py_int c =
    match add_book title author year st with
    | (Ok _, st') => (Done Again, mkConsole st' rest)
    | (Raise e, st') => (Failed (LibraryError e), mkConsole st' rest)
    | (Untyped, st') => (Lost, mkConsole st' rest)
    end.
Proof.
  intros Hin Htitle Hyear. rewrite iteration_unfold, Hin. cbv zeta.
  unfold dispatch. rewrite decide_True by done.
  rewrite sh_bind_input, (decide_False _ _ Htitle), !sh_bind_input, !say_say.
  unfold typed_year in Hyear.
  replace (if str_isdigit year_text
           then match py_int year_text with
                | Some n => mret n
                | None => fail ValueError
                end
           else mret 0) with (mret year : Sh Z).
  - rewrite sh_bind_ret. unfold mbind, Sh_bind, call. simpl.
    by destruct (add_book _ _ _ _) as [[?|?|] ?].
  - destruct (str_isdigit year_text); [by rewrite Hyear | congruence].
Qed.

(** X21. A year that [isdigit] accepts and [int] rejects (a superscript
    digit is one) ends the round, and so [main], with [ValueError]: the
    exception is not handled, and [add_book] is not called. *)
Theorem iteration_year_value_error (c : Console) (title author year_text : string)
    (rest : list string) :
  stdin c = "1" :: title :: author :: year_text :: rest →
  title ≠ "" →
  typed_year str_isdigit py_int year_text = None →
  iteration str_lower implicit_attr obj_repr str_strip str_isdigit py_int c =
    (Failed ValueError,
     mkConsole (say (library c)
                    (menu_lines ++ [prompt_choice; prompt_title; prompt_author; prompt_year]))
               rest).
Proof.
  intros Hin Htitle Hyear. rewrite iteration_unfold, Hin. cbv zeta.
  unfold dispatch. rewrite decide_True by done.
  rewrite sh_bind_input, (decide_False _ _ Htitle), !sh_bind_input, !say_say.
  unfold typed_year in Hyear.
  destruct (str_isdigit year_text); [rewrite Hyear | done].
  done.
Qed.

(** X22. A search from the menu on a catalog that is not empty, with a
    field that, stripped and lower-cased, [getattr] does not resolve, ends
    the round, and so [main], with [AttributeError]. *)
Theorem iteration_search_unknown_field (c : Console) (typed keyword : string)
    (rest : list string) :
  stdin c = "3" :: typed :: keyword :: rest →
  books (library c) ≠ [] →
  str_lower (str_strip typed) ∉ record_attrs →
  str_lower (str_strip typed) ∉ class_attrs →
  implicit_attr (str_lower (str_strip typed)) = false →
  iteration str_lower implicit_attr obj_repr str_strip str_isdigit py_int c =
    (Failed (LibraryError AttributeError),
     mkConsole (say (library c)
                    (menu_lines ++ [prompt_choice; prompt_field; prompt_keyword]))
               rest).
Proof.
  intros Hin Hne Hrec Hclass Himpl. rewrite iteration_unfold, Hin. cbv zeta.
  unfold dispatch. rewrite !decide_False, decide_True by done.
  rewrite !sh_bind_input, !say_say. cbv zeta.
  unfold mbind, Sh_bind, call. simpl.
  destruct (books (library c)) as [|b bs] eqn:Hbooks; [done |].
  unfold search_books, get_books, lift, mbind, M_bind. cbn [books say].
  rewrite Hbooks, (search_results_unknown _ _ _ _ _ _ _ Hrec Hclass Himpl).
  unfold say. by rewrite Hbooks.
Qed.
End ShellSession.

(** ** Sessions run on ASCII text *)

Lemma main_endings_witness :
  Library_init (library session) = (Ok PyNone, empty_library) ∧
  ∃ c', ascii_main session = Some (Done (), c') ∧
        last (stdout (library c')) = Some msg_goodbye.
Proof.
  split; [reflexivity |].
  eexists. split; [vm_compute; reflexivity |].
  eapply (main_endings lower_string ascii_implicit ascii_repr ascii_strip
            ascii_isdigit ascii_int session empty_library (Done ())); [reflexivity |].
  vm_compute. reflexivity.
Defined.

Lemma main_keeps_numbering_witness :
  Library_init (library session) = (Ok PyNone, empty_library) ∧
  well_numbered empty_library ∧
  ∃ r c', ascii_main session = Some (r, c') ∧
          well_numbered (library c') ∧ NoDup (ids (books (library c'))).
Proof.
  assert (Hnum : well_numbered empty_library) by (split; constructor).
  split_and!; [reflexivity | exact Hnum |].
  eexists _, _. split; [vm_compute; reflexivity |].
  eapply (main_keeps_numbering lower_string ascii_implicit ascii_repr ascii_strip
            ascii_isdigit ascii_int session empty_library); [reflexivity | exact Hnum |].
  vm_compute. reflexivity.
Defined.


Lemma iteration_rejects_bad_id_witness :
  stdin (mkConsole python_library ["2"; "two"; "6"]) = "2" :: "two" :: ["6"] ∧
  ("2" = "2" ∨ "2" = "5") ∧
  ascii_int "two" = None ∧
  ∃ prompt,
    ascii_iteration ascii_isdigit (mkConsole python_library ["2"; "two"; "6"]) =
      (Done Again,
       mkConsole (say python_library (menu_lines ++ [prompt_choice; prompt; msg_bad_id]))
                 ["6"]).
Proof.
  split_and!; [reflexivity | by left | reflexivity |].
  exact (iteration_rejects_bad_id lower_string ascii_implicit ascii_repr ascii_strip
           ascii_isdigit ascii_int (mkConsole python_library ["2"; "two"; "6"])
           "2" "two" ["6"] eq_refl (or_introl eq_refl) eq_refl).
Defined.

Lemma iteration_rejects_empty_title_witness :
  stdin (mkConsole python_library ["1"; ""; "6"]) = "1" :: "" :: ["6"] ∧
  ascii_iteration ascii_isdigit (mkConsole python_library ["1"; ""; "6"]) =
    (Done Again,
     mkConsole (say python_library
                    (menu_lines ++ [prompt_choice; prompt_title; msg_empty_title]))
               ["6"]).
Proof.
  split; [reflexivity |].
  exact (iteration_rejects_empty_title lower_string ascii_implicit ascii_repr
           ascii_strip ascii_isdigit ascii_int
           (mkConsole python_library ["1"; ""; "6"]) ["6"] eq_refl).
Defined.

Lemma iteration_adds_witness :
  "Dune" ≠ "" ∧
  typed_year ascii_isdigit ascii_int "about 1965" = Some 0 ∧
  (ascii_iteration ascii_isdigit
     (mkConsole python_library ["1"; "Dune"; "Herbert"; "about 1965"; "6"])).1 =
    Done Again ∧
  last (books (library (ascii_iteration ascii_isdigit
     (mkConsole python_library ["1"; "Dune"; "Herbert"; "about 1965"; "6"])).2)) =
    Some (mkBook 4 "Dune" "Herbert" 0 AVAILABLE).
Proof.
  assert (Htitle : "Dune" ≠ "") by discriminate.
  split_and!; [exact Htitle | reflexivity | |];
    unfold ascii_iteration;
    rewrite (iteration_adds lower_string ascii_implicit ascii_repr ascii_strip
               ascii_isdigit ascii_int
               (mkConsole python_library ["1"; "Dune"; "Herbert"; "about 1965"; "6"])
               "Dune" "Herbert" "about 1965" ["6"] 0 eq_refl Htitle eq_refl);
    reflexivity.
Defined.

Lemma iteration_year_value_error_witness :
  "Dune" ≠ "" ∧
  typed_year superscript_isdigit ascii_int "²" = None ∧
  ascii_iteration superscript_isdigit
    (mkConsole python_library ["1"; "Dune"; "Herbert"; "²"; "6"]) =
    (Failed ValueError,
     mkConsole (say python_library
                    (menu_lines ++ [prompt_choice; prompt_title; prompt_author; prompt_year]))
               ["6"]).
Proof.
  assert (Htitle : "Dune" ≠ "") by discriminate.
  split_and!; [exact Htitle | reflexivity |].
  exact (iteration_year_value_error lower_string ascii_implicit ascii_repr ascii_strip
           superscript_isdigit ascii_int
           (mkConsole python_library ["1"; "Dune"; "Herbert"; "²"; "6"])
           "Dune" "Herbert" "²" ["6"] eq_refl Htitle eq_refl).
Defined.

Lemma iteration_search_unknown_field_witness :
  books python_library ≠ [] ∧
  (lower_string (ascii_strip " ISBN ") ∉ record_attrs) ∧
  (lower_string (ascii_strip " ISBN ") ∉ class_attrs) ∧
  ascii_implicit (lower_string (ascii_strip " ISBN ")) = false ∧
  ascii_iteration ascii_isdigit (mkConsole python_library ["3"; " ISBN "; "emma"; "6"]) =
    (Failed (LibraryError AttributeError),
     mkConsole (say python_library
                    (menu_lines ++ [prompt_choice; prompt_field; prompt_keyword]))
               ["6"]).
Proof.
  assert (Hne : books python_library ≠ []) by discriminate.
  assert (Hrec : lower_string (ascii_strip " ISBN ") ∉ record_attrs)
    by (apply (bool_decide_unpack _); reflexivity).
  assert (Hclass : lower_string (ascii_strip " ISBN ") ∉ class_attrs)
    by (apply (bool_decide_unpack _); reflexivity).
  split_and!; [exact Hne | exact Hrec | exact Hclass | reflexivity |].
  exact (iteration_search_unknown_field lower_string ascii_implicit ascii_repr
           ascii_strip ascii_isdigit ascii_int
           (mkConsole python_library ["3"; " ISBN "; "emma"; "6"])
           " ISBN " "emma" ["6"] eq_refl Hne Hrec Hclass eq_refl).
Defined.
